(** * enforce-doc-labels: a webhook receiver that reopens unlabelled issues

    Shallow embedding of [main.go] and proofs of its specification.

    The Go program is a single HTTP handler ([receiver]) built from three
    helpers: [validateHeaderSig] (HMAC-SHA1 check of the [X-Hub-Signature]
    header), [hasDocLabels] (the label policy) and [reopenIssue] (two GitHub
    API calls).  The embedding keeps the Go names.

    Conventions of the embedding:
    - a Go [string] is a [string] (a sequence of bytes), a [[]byte] is a
      [list byte]; the conversion [[]byte(s)] is [list_byte_of_string];
    - a Go pointer field ([*string], [*int], [*github.Issue]) is an [option];
      dereferencing [None] panics;
    - a [map[string][]string] is the list of its entries in the order in
      which the [range] loop visits them; Go leaves that order unspecified,
      and the theorems hold for every order;
    - output, HTTP responses and remote calls are recorded in a trace of
      [Effect]s; a handler run ends normally ([Done]) or by a run-time panic
      ([Panic]);
    - everything outside the repository that the handler talks to (the hash
      behind [hmac.New], [encoding/json], the GitHub API) is a field of the
      record [Env]. *)

From Stdlib Require Import ZArith NArith List String Ascii Bool Lia.
From Stdlib Require Import Strings.Byte.
From Stdlib Require Import Sorting.Permutation.
Import ListNotations.
Local Open Scope string_scope.
Local Open Scope Z_scope.
Local Open Scope list_scope.

(* ================================================================== *)
(** * Bytes and strings *)
(* ================================================================== *)

Definition bytes := list byte.

(** [err.Error()]: the program only ever prints its errors. *)
Definition error := string.

Definition byte_to_Z (b : byte) : Z := Z.of_N (Byte.to_N b).

Definition byte_of_Z (z : Z) : byte :=
  match Byte.of_N (Z.to_N (z mod 256)) with
  | Some b => b
  | None => x00
  end.

(** [[]byte(s)] and [string(b)]. *)
Definition bytes_of_string (s : string) : bytes := list_byte_of_string s.
Definition string_of_bytes (b : bytes) : string := string_of_list_byte b.

(* ------------------------------------------------------------------ *)
(** ** [encoding/hex] *)

Definition hextable : string := "0123456789abcdef".

Definition hexdigit (z : Z) : ascii :=
  match String.get (Z.to_nat z) hextable with
  | Some c => c
  | None => "0"%char
  end.

(** [hex.EncodeToString]: two lower-case digits per byte, high nibble first. *)
Fixpoint EncodeToString (src : bytes) : string :=
  match src with
  | [] => EmptyString
  | b :: rest =>
      String (hexdigit (Z.shiftr (byte_to_Z b) 4))
        (String (hexdigit (Z.land (byte_to_Z b) 15)) (EncodeToString rest))
  end.

(* ------------------------------------------------------------------ *)
(** ** [crypto/subtle] and [hmac.Equal] *)

(** [subtle.ConstantTimeCompare]: 0 when the lengths differ, otherwise the
    bytewise xors are or-ed together and the result is 1 exactly when the
    accumulator is still 0. *)
Fixpoint xor_acc (v : Z) (x y : bytes) : Z :=
  match x, y with
  | a :: x', b :: y' => xor_acc (Z.lor v (Z.lxor (byte_to_Z a) (byte_to_Z b))) x' y'
  | _, _ => v
  end.

Definition ConstantTimeCompare (x y : bytes) : Z :=
  if negb (Nat.eqb (List.length x) (List.length y)) then 0
  else if Z.eqb (xor_acc 0 x y) 0 then 1 else 0.

Definition hmac_Equal (mac1 mac2 : bytes) : bool :=
  Z.eqb (ConstantTimeCompare mac1 mac2) 1.

(* ------------------------------------------------------------------ *)
(** ** [crypto/sha1] (FIPS 180-4) on 32-bit words carried by [Z] *)

Module SHA1.

Definition w32 (x : Z) : Z := x mod 2 ^ 32.

Definition add32 (x y : Z) : Z := w32 (x + y).

Definition rotl (n : Z) (x : Z) : Z :=
  w32 (Z.lor (Z.shiftl x n) (Z.shiftr x (32 - n))).

Definition not32 (x : Z) : Z := Z.lxor x 4294967295.

(** Big-endian encodings. *)
Fixpoint be_bytes (n : nat) (x : Z) : bytes :=
  match n with
  | O => []
  | S n' => byte_of_Z (Z.shiftr x (8 * Z.of_nat n')) :: be_bytes n' x
  end.

Definition be_word (b0 b1 b2 b3 : byte) : Z :=
  Z.lor (Z.shiftl (byte_to_Z b0) 24)
    (Z.lor (Z.shiftl (byte_to_Z b1) 16)
       (Z.lor (Z.shiftl (byte_to_Z b2) 8) (byte_to_Z b3))).

Fixpoint words (b : bytes) : list Z :=
  match b with
  | b0 :: b1 :: b2 :: b3 :: rest => be_word b0 b1 b2 b3 :: words rest
  | _ => []
  end.

(** Message padding: a 1 bit, zeros up to 56 mod 64, the bit length on
    64 bits. *)
Definition pad (msg : bytes) : bytes :=
  let len := Z.of_nat (List.length msg) in
  msg ++ [x80] ++ repeat x00 (Z.to_nat ((55 - len) mod 64)) ++ be_bytes 8 (8 * len).

Fixpoint blocks (fuel : nat) (b : bytes) : list bytes :=
  match fuel with
  | O => []
  | S fuel' =>
      match b with
      | [] => []
      | _ => firstn 64 b :: blocks fuel' (skipn 64 b)
      end
  end.

Definition f (t : Z) (b c d : Z) : Z :=
  if t <? 20 then Z.lor (Z.land b c) (Z.land (not32 b) d)
  else if t <? 40 then Z.lxor b (Z.lxor c d)
  else if t <? 60 then Z.lor (Z.land b c) (Z.lor (Z.land b d) (Z.land c d))
  else Z.lxor b (Z.lxor c d).

Definition K (t : Z) : Z :=
  if t <? 20 then 1518500249       (* 0x5A827999 *)
  else if t <? 40 then 1859775393  (* 0x6ED9EBA1 *)
  else if t <? 60 then 2400959708  (* 0x8F1BBCDC *)
  else 3395469782.                 (* 0xCA62C1D6 *)

Record regs := Regs { ra : Z; rb : Z; rc : Z; rd : Z; re : Z }.

(** The message schedule is kept as a window of sixteen words:
    [W(t+16) = rotl 1 (W(t+13) xor W(t+8) xor W(t+2) xor W(t))]. *)
Definition next_window (w : list Z) : list Z :=
  tl w ++ [rotl 1 (Z.lxor (nth 13 w 0) (Z.lxor (nth 8 w 0) (Z.lxor (nth 2 w 0) (nth 0 w 0))))].

Fixpoint rounds (n : nat) (t : Z) (w : list Z) (r : regs) : regs :=
  match n with
  | O => r
  | S n' =>
      let temp :=
        add32 (rotl 5 (ra r))
          (add32 (f t (rb r) (rc r) (rd r)) (add32 (re r) (add32 (K t) (nth 0 w 0)))) in
      rounds n' (t + 1) (next_window w)
        (Regs temp (ra r) (rotl 30 (rb r)) (rc r) (rd r))
  end.

Definition compress (h : regs) (block : bytes) : regs :=
  let r := rounds 80 0 (words block) h in
  Regs (add32 (ra h) (ra r)) (add32 (rb h) (rb r)) (add32 (rc h) (rc r))
       (add32 (rd h) (rd r)) (add32 (re h) (re r)).

Definition init : regs :=
  Regs 1732584193 4023233417 2562383102 271733878 3285377520.

Definition Size : nat := 20%nat.
Definition BlockSize : nat := 64%nat.

Definition Sum (msg : bytes) : bytes :=
  let p := pad msg in
  let h := fold_left compress (blocks (List.length p) p) init in
  be_bytes 4 (ra h) ++ be_bytes 4 (rb h) ++ be_bytes 4 (rc h)
    ++ be_bytes 4 (rd h) ++ be_bytes 4 (re h).

End SHA1.

(* ------------------------------------------------------------------ *)
(** ** [crypto/hmac] (RFC 2104) over SHA-1 *)

Definition xor_byte (c : Z) (b : byte) : byte := byte_of_Z (Z.lxor (byte_to_Z b) c).

Definition hmac_key_block (key : bytes) : bytes :=
  let k := if Nat.ltb SHA1.BlockSize (List.length key) then SHA1.Sum key else key in
  k ++ repeat x00 (SHA1.BlockSize - List.length k).

Definition hmac_sha1 (key msg : bytes) : bytes :=
  let k := hmac_key_block key in
  SHA1.Sum (map (xor_byte 92) k ++ SHA1.Sum (map (xor_byte 54) k ++ msg)).

Arguments hmac_sha1 : simpl never.

(** The slice of the [hash.Hash] interface that the program uses, for the
    object returned by [hmac.New(sha1.New, key)]. *)
Record HashLib := {
  mac : Type;
  hmac_New : bytes -> mac;
  (** [mac.Write(p)] returns [(n, err)] and the updated object. *)
  mac_Write : mac -> bytes -> mac * (Z * option error);
  (** [mac.Sum(b)] appends the digest of what was written to [b]. *)
  mac_Sum : mac -> bytes -> bytes
}.

(** The Go standard library: the object remembers the key and the bytes
    written; [Write] never fails. *)
Definition go_hmac_sha1 : HashLib := {|
  mac := bytes * bytes;
  hmac_New := fun key => (key, []);
  mac_Write := fun m p => ((fst m, snd m ++ p), (Z.of_nat (List.length p), None));
  mac_Sum := fun m b => b ++ hmac_sha1 (fst m) (snd m)
|}.

(* ================================================================== *)
(** * [net/http] *)
(* ================================================================== *)

Definition in_range (lo hi c : ascii) : bool :=
  (N_of_ascii lo <=? N_of_ascii c)%N && (N_of_ascii c <=? N_of_ascii hi)%N.

Definition is_lower (c : ascii) : bool := in_range "a" "z" c.
Definition is_upper (c : ascii) : bool := in_range "A" "Z" c.
Definition is_digit (c : ascii) : bool := in_range "0" "9" c.

Fixpoint mem_ascii (c : ascii) (s : string) : bool :=
  match s with
  | EmptyString => false
  | String d rest => Ascii.eqb c d || mem_ascii c rest
  end.

(** [textproto]'s table of RFC 7230 token bytes. *)
Definition validHeaderFieldByte (c : ascii) : bool :=
  is_lower c || is_upper c || is_digit c || mem_ascii c "!#$%&'*+-.^_`|~".

Definition toLower : N := 32.

Definition shift_case (up : bool) (c : ascii) : ascii :=
  ascii_of_N (if up then N_of_ascii c - toLower else N_of_ascii c + toLower)%N.

(** The canonicalising loop: upper case for the first letter and after each
    dash, lower case elsewhere. *)
Fixpoint canonical_loop (upper : bool) (a : string) : string :=
  match a with
  | EmptyString => EmptyString
  | String c rest =>
      let c' :=
        if upper && is_lower c then shift_case true c
        else if negb upper && is_upper c then shift_case false c
        else c in
      String c' (canonical_loop (Ascii.eqb c' "-") rest)
  end.

Fixpoint all_ascii (p : ascii -> bool) (s : string) : bool :=
  match s with
  | EmptyString => true
  | String c rest => p c && all_ascii p rest
  end.

(** [http.CanonicalHeaderKey]: a key holding a byte that is not a token
    byte is returned unchanged. *)
Definition CanonicalHeaderKey (s : string) : string :=
  if all_ascii validHeaderFieldByte s then canonical_loop true s else s.

Definition StatusBadRequest : Z := 400.
Definition StatusOK : Z := 200.

(** [http.Header], a [map[string][]string], as the sequence of entries a
    [range] loop yields. *)
Definition Header := list (string * list string).

(** What the handler consumes of an [*http.Request]: the headers and the
    result [(data, err)] of [ioutil.ReadAll(req.Body)]. *)
Record Request := {
  req_Header : Header;
  req_Body : bytes * option error
}.

(* ================================================================== *)
(** * [go-github]: the fields the program reads *)
(* ================================================================== *)

Module github.

Record Label := { Label_Name : option string }.

(** [func (l *Label) GetName() string]: the empty string for a nil field. *)
Definition GetName (l : Label) : string :=
  match Label_Name l with
  | Some n => n
  | None => EmptyString
  end.

Record Issue := {
  Issue_Number : option Z;
  Issue_State : option string;
  Issue_Labels : list Label
}.

(** [func (i *Issue) GetNumber() int]: 0 for a nil receiver or field. *)
Definition GetNumber (i : option Issue) : Z :=
  match i with
  | Some i' => match Issue_Number i' with Some n => n | None => 0 end
  | None => 0
  end.

Record IssueEvent := { IssueEvent_Issue : option Issue }.

End github.

(* ================================================================== *)
(** * Effects *)
(* ================================================================== *)

Inductive Effect :=
  (** [fmt.Fprintf(os.Stderr, ...)], with the formatted text *)
| Stderr (text : string)
  (** [log.Printf(...)] *)
| LogPrintf (text : string)
  (** [http.Error(w, msg, code)] *)
| HttpError (msg : string) (code : Z)
  (** [decoder.Decode(&event)] on a stream holding [body] *)
| JsonDecode (body : bytes)
  (** entry into [reopenIssue] *)
| ReopenIssue (issue : option github.Issue)
  (** [client.Issues.CreateComment(ctx, owner, repo, number, comment)] *)
| CreateComment (owner repo : string) (number : Z) (body : string)
  (** [client.Issues.Edit(ctx, owner, repo, number, &IssueRequest{State})] *)
| EditIssue (owner repo : string) (number : Z) (state : string).

Definition Trace := list Effect.

Inductive Outcome (A : Type) :=
| Done (a : A)
| Panic (why : string).
Arguments Done {A} a.
Arguments Panic {A} why.

(** A computation: the effects it performed and how it ended. *)
Definition M (A : Type) : Type := Trace * Outcome A.

Definition ret {A} (a : A) : M A := ([], Done a).

Definition bind {A B} (m : M A) (k : A -> M B) : M B :=
  match m with
  | (t, Done a) => let (t', r) := k a in (t ++ t', r)
  | (t, Panic why) => (t, Panic why)
  end.

Definition emit (e : Effect) : M unit := ([e], Done tt).

Definition panic {A} (why : string) : M A := ([], Panic why).

Notation "x <- m ;; k" := (bind m (fun x => k))
  (at level 61, m at next level, right associativity).
Notation "m ;; k" := (bind m (fun _ => k))
  (at level 61, right associativity).

Definition trace {A} (m : M A) : Trace := fst m.
Definition outcome {A} (m : M A) : Outcome A := snd m.

Definition nil_dereference : string :=
  "runtime error: invalid memory address or nil pointer dereference".

(* ================================================================== *)
(** * The world outside the repository *)
(* ================================================================== *)

Record Env := {
  (** [var secretToken []byte], set once by [main] *)
  secretToken : bytes;
  (** [var githubAccessToken string], set once by [main] *)
  githubAccessToken : string;
  (** [crypto/hmac] with [crypto/sha1] *)
  crypto : HashLib;
  (** [json.NewDecoder(r).Decode(&event)] for [var event *github.IssueEvent]
      (nil before the call) and a stream holding the given bytes: an error,
      or the pointer afterwards; the JSON text [null] leaves it nil. *)
  json_Decode : bytes -> error + option github.IssueEvent;
  (** the error of [Issues.CreateComment] for a client built from the given
      access token *)
  Issues_CreateComment : string -> string -> string -> Z -> string -> option error;
  (** the error of [Issues.Edit] *)
  Issues_Edit : string -> string -> string -> Z -> string -> option error
}.

(* ================================================================== *)
(** * [main.go] *)
(* ================================================================== *)

Definition docsHasImpact : string := "docs/has-impact".
Definition docsNoImpact : string := "docs/no-impact".

Definition repoName : string := "vic".
Definition repoOwner : string := "vmware".

Definition sigHeaderName : string := "X-Hub-Signature".

(** The body of the branch taken for the signature header, once its value
    list [v] is known to hold one element (lines 46-59). *)
Definition checkSignature (E : Env) (v : list string) (body : bytes) : M bool :=
  let m := hmac_New (crypto E) (secretToken E) in
  let '(m, (n, err)) := mac_Write (crypto E) m body in
  match err with
  | Some _ =>
      emit (Stderr "Failed to write request body to HMAC to calculate signature") ;;
      if n <=? 0 then
        emit (Stderr "Body of request was empty") ;;
        ret false
      else ret false
  | None =>
      let signature := mac_Sum (crypto E) m [] in
      ret (hmac_Equal (bytes_of_string (nth 0 v EmptyString))
             (bytes_of_string (String.append "sha1=" (EncodeToString signature))))
  end.

(** [validateHeaderSig]: the loop stops at the first key it visits whose
    canonical form is [X-Hub-Signature]. *)
Fixpoint validateHeaderSig (E : Env) (headers : Header) (body : bytes) : M bool :=
  match headers with
  | [] => ret false
  | (k, v) :: rest =>
      if String.eqb (CanonicalHeaderKey k) sigHeaderName then
        if negb (Nat.eqb (List.length v) 1) then
          emit (Stderr "Got suspicious signature") ;;
          ret false
        else checkSignature E v body
      else validateHeaderSig E rest body
  end.

Definition reminder : string :=
  String.append "Please help keep our documentation up to date by adding either `"
    (String.append docsNoImpact (String.append "` or `" (String.append docsHasImpact
      "` as a label to this issue to notify our documentation authors as to whether or not this issue affects the documentation."))).

Definition reopenIssue (E : Env) (issue : option github.Issue) : M (option error) :=
  emit (ReopenIssue issue) ;;
  emit (CreateComment repoOwner repoName (github.GetNumber issue) reminder) ;;
  match Issues_CreateComment E (githubAccessToken E) repoOwner repoName
          (github.GetNumber issue) reminder with
  | Some err =>
      emit (Stderr (String.append "Got " (String.append err
              " trying to add a friendly comment to the issue"))) ;;
      ret (Some err)
  | None =>
      emit (EditIssue repoOwner repoName (github.GetNumber issue) "open") ;;
      match Issues_Edit E (githubAccessToken E) repoOwner repoName
              (github.GetNumber issue) "open" with
      | Some err =>
          emit (Stderr (String.append "Got " (String.append err
                  " trying to reopen the issue"))) ;;
          ret (Some err)
      | None => ret None
      end
  end.

Fixpoint hasDocLabels (labels : list github.Label) : bool :=
  match labels with
  | [] => false
  | label :: rest =>
      let name := github.GetName label in
      if String.eqb name docsHasImpact || String.eqb name docsNoImpact then true
      else hasDocLabels rest
  end.

Fixpoint getLabels (labels : list github.Label) : list string :=
  match labels with
  | [] => []
  | label :: rest => github.GetName label :: getLabels rest
  end.

(** [receiver]: the handler of [/github_endpoint]. *)
Definition receiver (E : Env) (req : Request) : M unit :=
  let (body, err) := req_Body req in
  match err with
  | Some e =>
      emit (LogPrintf (String.append "Error reading body: " e)) ;;
      emit (HttpError "can't read body" StatusBadRequest) ;;
      ret tt
  | None =>
      validated <- validateHeaderSig E (req_Header req) body ;;
      if negb validated then ret tt
      else
        emit (JsonDecode body) ;;
        match json_Decode E body with
        | inl e =>
            emit (Stderr (String.append "Could not decode json: " e)) ;;
            ret tt
        | inr None => panic nil_dereference          (* [event.Issue], [event] nil *)
        | inr (Some event) =>
            match github.IssueEvent_Issue event with
            | None => ret tt
            | Some issue =>
                match github.Issue_State issue with
                | None => panic nil_dereference      (* [*event.Issue.State] *)
                | Some state =>
                    if String.eqb state "closed"
                       && negb (hasDocLabels (github.Issue_Labels issue))
                    then
                      err <- reopenIssue E (Some issue) ;;
                      match err with
                      | Some e =>
                          emit (Stderr (String.append "Got error reopening issue: " e)) ;;
                          ret tt
                      | None => ret tt
                      end
                    else ret tt
                end
            end
        end
  end.

(** The handler of [/whoami] writes a fixed text. *)
Definition whoami_text : string :=
  String.append "github webhook for enforcing doc labels on PR's" (String (ascii_of_N 10) EmptyString).

(* ================================================================== *)
(** * Vocabulary of the specification *)
(* ================================================================== *)

(** The value list of the request's [X-Hub-Signature] header: the first
    entry, in visiting order, whose canonical name is [X-Hub-Signature]. *)
Fixpoint lookupSig (headers : Header) : option (list string) :=
  match headers with
  | [] => None
  | (k, v) :: rest =>
      if String.eqb (CanonicalHeaderKey k) sigHeaderName then Some v
      else lookupSig rest
  end.

(** The error, if any, of writing [body] to a fresh MAC. *)
Definition write_error (E : Env) (body : bytes) : option error :=
  snd (snd (mac_Write (crypto E) (hmac_New (crypto E) (secretToken E)) body)).

(** The string the header value is compared with. *)
Definition computedSig (E : Env) (body : bytes) : string :=
  String.append "sha1="
    (EncodeToString
       (mac_Sum (crypto E)
          (fst (mac_Write (crypto E) (hmac_New (crypto E) (secretToken E)) body)) [])).

(** ["sha1="] followed by the lower-case hex HMAC-SHA1 of [body] under [key]. *)
Definition githubSignature (key body : bytes) : string :=
  String.append "sha1=" (EncodeToString (hmac_sha1 key body)).

Definition is_reopen (e : Effect) : bool :=
  match e with ReopenIssue _ => true | _ => false end.

Definition is_decode (e : Effect) : bool :=
  match e with JsonDecode _ => true | _ => false end.

Definition is_edit (e : Effect) : bool :=
  match e with EditIssue _ _ _ _ => true | _ => false end.

Definition is_comment (e : Effect) : bool :=
  match e with CreateComment _ _ _ _ => true | _ => false end.

Definition is_stderr (e : Effect) : bool :=
  match e with Stderr _ => true | _ => false end.

Definition count (p : Effect -> bool) (t : Trace) : nat := List.length (filter p t).

(** How many times the run entered [reopenIssue]. *)
Definition invocations (t : Trace) : nat := count is_reopen t.

(** How many times the run reached [decoder.Decode]. *)
Definition decodes (t : Trace) : nat := count is_decode t.

(** Everything written by [fmt.Fprintf(os.Stderr, ...)], in order. *)
Fixpoint stderr_of (t : Trace) : list string :=
  match t with
  | [] => []
  | Stderr s :: t' => s :: stderr_of t'
  | _ :: t' => stderr_of t'
  end.

(** The status the handler set explicitly, if it set one; net/http answers
    200 otherwise. *)
Fixpoint status_of (t : Trace) : Z :=
  match t with
  | [] => StatusOK
  | HttpError _ code :: _ => code
  | _ :: t' => status_of t'
  end.

(** Flipping bit [i] (counted from the least significant bit of the first
    byte) of a byte sequence. *)
Definition flip_byte (i : nat) (b : byte) : byte :=
  byte_of_Z (Z.lxor (byte_to_Z b) (2 ^ Z.of_nat i)).

Fixpoint flip_bit (i : nat) (bs : bytes) : bytes :=
  match bs with
  | [] => []
  | b :: rest =>
      if Nat.ltb i 8 then flip_byte i b :: rest
      else b :: flip_bit (i - 8) rest
  end.

Definition flip_string_bit (i : nat) (s : string) : string :=
  string_of_bytes (flip_bit i (bytes_of_string s)).

(* ================================================================== *)
(** * Concrete deliveries, used to exercise the theorems *)
(* ================================================================== *)

Definition quote : string := String (ascii_of_N 34) EmptyString.
Definition json_string (s : string) : string := String.append quote (String.append s quote).
Definition concat_strings (l : list string) : string := fold_right String.append EmptyString l.

(** An issue event for issue 7, closed, without labels. *)
Definition body_closed_unlabelled : string :=
  concat_strings
    ["{"; json_string "action"; ":"; json_string "closed"; ",";
     json_string "issue"; ":{"; json_string "number"; ":7,";
     json_string "state"; ":"; json_string "closed"; ",";
     json_string "labels"; ":[]}}"].

(** The same event with no [state] member in the issue object. *)
Definition body_without_state : string :=
  concat_strings
    ["{"; json_string "action"; ":"; json_string "closed"; ",";
     json_string "issue"; ":{"; json_string "number"; ":7,";
     json_string "labels"; ":[]}}"].

Definition issue_closed_unlabelled : github.Issue :=
  {| github.Issue_Number := Some 7;
     github.Issue_State := Some "closed";
     github.Issue_Labels := [] |}.

Definition issue_without_state : github.Issue :=
  {| github.Issue_Number := Some 7;
     github.Issue_State := None;
     github.Issue_Labels := [] |}.

(** What [encoding/json] makes of the two bodies above; every other body is
    taken to be malformed. *)
Definition sample_decode (b : bytes) : error + option github.IssueEvent :=
  let text := string_of_bytes b in
  if String.eqb text body_closed_unlabelled then
    inr (Some {| github.IssueEvent_Issue := Some issue_closed_unlabelled |})
  else if String.eqb text body_without_state then
    inr (Some {| github.IssueEvent_Issue := Some issue_without_state |})
  else inl "invalid character".

(** A world with Go's HMAC-SHA1, the secret [s3cret] and a GitHub API that
    accepts every call. *)
Definition sampleEnv : Env := {|
  secretToken := bytes_of_string "s3cret";
  githubAccessToken := "t0ken";
  crypto := go_hmac_sha1;
  json_Decode := sample_decode;
  Issues_CreateComment := fun _ _ _ _ _ => None;
  Issues_Edit := fun _ _ _ _ _ => None
|}.

(** The same world with a GitHub API that refuses to create comments. *)
Definition forbiddenEnv : Env := {|
  secretToken := secretToken sampleEnv;
  githubAccessToken := githubAccessToken sampleEnv;
  crypto := go_hmac_sha1;
  json_Decode := sample_decode;
  Issues_CreateComment := fun _ _ _ _ _ => Some "403 Forbidden";
  Issues_Edit := fun _ _ _ _ _ => None
|}.

(** A [hash.Hash] whose [Write] fails without consuming anything. *)
Definition broken_hash : HashLib := {|
  mac := unit;
  hmac_New := fun _ => tt;
  mac_Write := fun m _ => (m, (0, Some "short write"));
  mac_Sum := fun _ b => b
|}.

Definition brokenHashEnv : Env := {|
  secretToken := secretToken sampleEnv;
  githubAccessToken := githubAccessToken sampleEnv;
  crypto := broken_hash;
  json_Decode := sample_decode;
  Issues_CreateComment := fun _ _ _ _ _ => None;
  Issues_Edit := fun _ _ _ _ _ => None
|}.

(** A delivery as net/http hands it over: canonical header names, the body
    read without error. *)
Definition delivery (signature : list string) (body : string) : Request := {|
  req_Header := [("Content-Type", ["application/json"]);
                 ("X-Hub-Signature", signature)];
  req_Body := (bytes_of_string body, None)
|}.

Definition unsigned_delivery (body : string) : Request := {|
  req_Header := [("Content-Type", ["application/json"])];
  req_Body := (bytes_of_string body, None)
|}.

Definition interrupted_delivery : Request := {|
  req_Header := [("Content-Type", ["application/json"])];
  req_Body := (bytes_of_string "{", Some "unexpected EOF")
|}.

Definition sig_closed_unlabelled : string :=
  "sha1=c8ab13d06d33db5b6a992f855d0137418723f0e2".

Definition sig_without_state : string :=
  "sha1=246265cc0f32a868a5a07190e3fbfb93a4ab8846".

(* ================================================================== *)
(** * Further vocabulary: start-up, API calls, more deliveries *)
(* ================================================================== *)

(** Lines 143-144 of [main]: the two package variables are filled from the
    process environment before the server starts; [os.Getenv] gives the
    empty string for a variable that is not set.  [world] supplies the
    libraries and the remote API. *)
Definition main_config (getenv : string -> string) (world : Env) : Env := {|
  secretToken := bytes_of_string (getenv "DOC_ENFORCER_SECRET_TOKEN");
  githubAccessToken := getenv "DOC_ENFORCER_GITHUB_ACCESS_TOKEN";
  crypto := crypto world;
  json_Decode := json_Decode world;
  Issues_CreateComment := Issues_CreateComment world;
  Issues_Edit := Issues_Edit world
|}.

Definition is_http_error (e : Effect) : bool :=
  match e with HttpError _ _ => true | _ => false end.

(** A call to the GitHub API. *)
Definition is_api (e : Effect) : bool := is_comment e || is_edit e.

(** The effect, if it is an API call, addresses the given issue of the
    given repository. *)
Definition addresses (owner repo : string) (number : Z) (e : Effect) : Prop :=
  match e with
  | CreateComment o r n _ => o = owner /\ r = repo /\ n = number
  | EditIssue o r n _ => o = owner /\ r = repo /\ n = number
  | _ => True
  end.

(** The header map after the server's canonicalisation of its keys. *)
Definition canonical_header (headers : Header) : Header :=
  map (fun kv => (CanonicalHeaderKey (fst kv), snd kv)) headers.

(** The canonical names of a header map, in visiting order. *)
Definition canonical_keys_of (headers : Header) : list string :=
  map (fun kv => CanonicalHeaderKey (fst kv)) headers.

(** One step of [canonical_loop]. *)
Definition canonical_step (upper : bool) (c : ascii) : ascii :=
  if upper && is_lower c then shift_case true c
  else if negb upper && is_upper c then shift_case false c
  else c.

(** The handler dereferences a nil pointer: the authenticated body decoded
    to a nil event, or to an event whose issue has no state. *)
Definition nil_reached (E : Env) (req : Request) : Prop :=
  exists body,
    req_Body req = (body, None)
    /\ outcome (validateHeaderSig E (req_Header req) body) = Done true
    /\ (json_Decode E body = inr None
        \/ exists event issue,
             json_Decode E body = inr (Some event)
             /\ github.IssueEvent_Issue event = Some issue
             /\ github.Issue_State issue = None).

(** An issue event for issue 7, closed, carrying one qualifying label. *)
Definition body_closed_labelled : string :=
  concat_strings
    ["{"; json_string "action"; ":"; json_string "closed"; ",";
     json_string "issue"; ":{"; json_string "number"; ":7,";
     json_string "state"; ":"; json_string "closed"; ",";
     json_string "labels"; ":[{"; json_string "name"; ":";
     json_string "docs/no-impact"; "}]}}"].

(** An event that is not about an issue. *)
Definition body_ping : string :=
  concat_strings ["{"; json_string "zen"; ":"; json_string "Keep it logically awesome."; "}"].

Definition issue_closed_labelled : github.Issue :=
  {| github.Issue_Number := Some 7;
     github.Issue_State := Some "closed";
     github.Issue_Labels := [ {| github.Label_Name := Some "docs/no-impact" |} ] |}.

(** What [encoding/json] makes of the bodies used below: the text [null]
    leaves the event pointer nil; the remaining bodies are left to
    [sample_decode]. *)
Definition wide_decode (b : bytes) : error + option github.IssueEvent :=
  let text := string_of_bytes b in
  if String.eqb text "null" then inr None
  else if String.eqb text body_ping then
    inr (Some {| github.IssueEvent_Issue := None |})
  else if String.eqb text body_closed_labelled then
    inr (Some {| github.IssueEvent_Issue := Some issue_closed_labelled |})
  else sample_decode b.

(** A world with Go's HMAC-SHA1 and the secret [s3cret] in which the two
    API calls answer as given. *)
Definition apiEnv (create edit : option error) : Env := {|
  secretToken := secretToken sampleEnv;
  githubAccessToken := githubAccessToken sampleEnv;
  crypto := go_hmac_sha1;
  json_Decode := wide_decode;
  Issues_CreateComment := fun _ _ _ _ _ => create;
  Issues_Edit := fun _ _ _ _ _ => edit
|}.

(** A delivery signed by GitHub with the secret of [E]. *)
Definition signed_delivery (E : Env) (body : string) : Request :=
  delivery [githubSignature (secretToken E) (bytes_of_string body)] body.

(** A raw map holding the signature header under two spellings, in the two
    orders a [range] loop may visit it. *)
Definition two_spellings (body : string) : Header :=
  [("X-Hub-Signature", [githubSignature (secretToken sampleEnv) (bytes_of_string body)]);
   ("x-hub-signature", ["sha1=0000000000000000000000000000000000000000"])].

(* ================================================================== *)
(** * The library models agree with published test vectors *)
(* ================================================================== *)

Example sha1_abc :
  EncodeToString (SHA1.Sum (bytes_of_string "abc"))
  = "a9993e364706816aba3e25717850c26c9cd0d89d".
Proof. vm_compute. reflexivity. Qed.

Example sha1_empty :
  EncodeToString (SHA1.Sum [])
  = "da39a3ee5e6b4b0d3255bfef95601890afd80709".
Proof. vm_compute. reflexivity. Qed.

Example sha1_two_blocks :
  EncodeToString (SHA1.Sum (bytes_of_string
    "abcdbcdecdefdefgefghfghighijhijkijkljklmklmnlmnomnopnopq"))
  = "84983e441c3bd26ebaae4aa1f95129e5e54670f1".
Proof. vm_compute. reflexivity. Qed.

(** RFC 2202, test case 6: a key longer than the block is hashed first. *)
Example hmac_sha1_long_key :
  EncodeToString (hmac_sha1 (repeat "170"%byte 80)
    (bytes_of_string "Test Using Larger Than Block-Size Key - Hash Key First"))
  = "aa4ae5e15272d00e95705637ce8a3b55ed402112".
Proof. vm_compute. reflexivity. Qed.

Example hmac_sha1_fox :
  EncodeToString (hmac_sha1 (bytes_of_string "key")
    (bytes_of_string "The quick brown fox jumps over the lazy dog"))
  = "de7c9b85b8b78aa6bc8a7a36f70a90701c9db4d9".
Proof. vm_compute. reflexivity. Qed.

Example canonical_keys :
  map CanonicalHeaderKey
    ["x-hub-signature"; "X-HUB-SIGNATURE"; "x-hub signature"; "content-type"]
  = ["X-Hub-Signature"; "X-Hub-Signature"; "x-hub signature"; "Content-Type"].
Proof. reflexivity. Qed.

Example sig_closed_unlabelled_ok :
  githubSignature (secretToken sampleEnv) (bytes_of_string body_closed_unlabelled)
  = sig_closed_unlabelled.
Proof. vm_compute. reflexivity. Qed.

Example sig_without_state_ok :
  githubSignature (secretToken sampleEnv) (bytes_of_string body_without_state)
  = sig_without_state.
Proof. vm_compute. reflexivity. Qed.

(* ================================================================== *)
(** * Bytes, strings and constant-time comparison *)
(* ================================================================== *)

Lemma byte_to_Z_inj (a b : byte) : byte_to_Z a = byte_to_Z b -> a = b.
Proof.
  unfold byte_to_Z. intros H. apply N2Z.inj in H.
  assert (Ha := Byte.of_to_N a). assert (Hb := Byte.of_to_N b).
  rewrite H in Ha. congruence.
Qed.

Lemma bytes_of_string_of_bytes (b : bytes) : bytes_of_string (string_of_bytes b) = b.
Proof. apply list_byte_of_string_of_list_byte. Qed.

Lemma string_of_bytes_of_string (s : string) : string_of_bytes (bytes_of_string s) = s.
Proof. apply string_of_list_byte_of_string. Qed.

Lemma length_bytes_of_string (s : string) :
  List.length (bytes_of_string s) = String.length s.
Proof.
  unfold bytes_of_string, list_byte_of_string.
  rewrite length_map. induction s; simpl; auto.
Qed.

Lemma bytes_of_string_inj (s t : string) : bytes_of_string s = bytes_of_string t -> s = t.
Proof.
  intros H. rewrite <- (string_of_bytes_of_string s), <- (string_of_bytes_of_string t).
  now rewrite H.
Qed.

Lemma xor_acc_zero (x : bytes) : forall (y : bytes) (v : Z),
  List.length x = List.length y ->
  (xor_acc v x y = 0 <-> v = 0 /\ x = y).
Proof.
  induction x as [|a x IH]; intros [|b y] v Hlen; simpl in *; try discriminate.
  - intuition.
  - injection Hlen as Hlen. rewrite (IH y _ Hlen), Z.lor_eq_0_iff, Z.lxor_eq_0_iff.
    split.
    + intros [[Hv Hab] Hxy]. apply byte_to_Z_inj in Hab. subst. auto.
    + intros [Hv Heq]. injection Heq as -> ->. auto.
Qed.

(** [hmac.Equal] decides equality of the two byte slices. *)
Lemma hmac_Equal_iff (x y : bytes) : hmac_Equal x y = true <-> x = y.
Proof.
  unfold hmac_Equal, ConstantTimeCompare.
  destruct (Nat.eqb (List.length x) (List.length y)) eqn:Hlen; simpl.
  - apply Nat.eqb_eq in Hlen.
    destruct (Z.eqb (xor_acc 0 x y) 0) eqn:Hacc.
    + apply Z.eqb_eq in Hacc. apply xor_acc_zero in Hacc; [|exact Hlen].
      split; [intros _; tauto | reflexivity].
    + split; [discriminate|]. intros ->.
      apply Z.eqb_neq in Hacc. exfalso. apply Hacc.
      apply xor_acc_zero; auto.
  - apply Nat.eqb_neq in Hlen. split; [discriminate|]. intros ->. now elim Hlen.
Qed.

Lemma hmac_Equal_strings (s t : string) :
  hmac_Equal (bytes_of_string s) (bytes_of_string t) = true <-> s = t.
Proof.
  rewrite hmac_Equal_iff. split; [apply bytes_of_string_inj | now intros ->].
Qed.

Lemma flip_byte_neq (i : nat) (b : byte) : (i < 8)%nat -> flip_byte i b <> b.
Proof.
  intros Hi.
  do 8 (destruct i as [|i]; [destruct b; vm_compute; discriminate|]).
  lia.
Qed.

Lemma flip_bit_neq (bs : bytes) : forall i : nat,
  (i < 8 * List.length bs)%nat -> flip_bit i bs <> bs.
Proof.
  induction bs as [|b bs IH]; intros i Hi; simpl in *; [lia|].
  destruct (Nat.ltb i 8) eqn:Hlt.
  - apply Nat.ltb_lt in Hlt. intros Heq. injection Heq as Heq.
    now apply (flip_byte_neq i b).
  - apply Nat.ltb_ge in Hlt. intros Heq. injection Heq as Heq.
    apply (IH (i - 8)%nat); [lia | exact Heq].
Qed.

Lemma flip_string_bit_neq (s : string) (i : nat) :
  (i < 8 * String.length s)%nat -> flip_string_bit i s <> s.
Proof.
  intros Hi Heq. unfold flip_string_bit in Heq.
  apply (f_equal bytes_of_string) in Heq.
  rewrite bytes_of_string_of_bytes in Heq.
  apply (flip_bit_neq (bytes_of_string s) i); [|exact Heq].
  now rewrite length_bytes_of_string.
Qed.

(* ================================================================== *)
(** * Traces *)
(* ================================================================== *)

Lemma count_app (p : Effect -> bool) (t t' : Trace) :
  count p (t ++ t') = (count p t + count p t')%nat.
Proof. unfold count. now rewrite filter_app, length_app. Qed.

Lemma count_nil (p : Effect -> bool) : count p [] = 0%nat.
Proof. reflexivity. Qed.

Lemma count_cons (p : Effect -> bool) (e : Effect) (t : Trace) :
  count p (e :: t) = ((if p e then 1 else 0) + count p t)%nat.
Proof. unfold count. simpl. now destruct (p e). Qed.

Create Rewrite HintDb count.
#[local] Hint Rewrite count_app count_cons count_nil : count.

(** Unfold the monad, leaving the counting functions folded. *)
Ltac run_trace := cbn [trace fst snd bind emit ret panic app negb] in *.

Lemma count_disjoint (p q : Effect -> bool) (t : Trace) :
  (forall e, q e = true -> p e = false) ->
  forallb q t = true -> count p t = 0%nat.
Proof.
  intros Hpq. unfold count. induction t as [|e t IH]; simpl; [reflexivity|].
  intros H. apply andb_true_iff in H as [He Ht].
  rewrite (Hpq e He). auto.
Qed.

Lemma stderr_of_app (t t' : Trace) : stderr_of (t ++ t') = stderr_of t ++ stderr_of t'.
Proof.
  induction t as [|e t IH]; simpl; [reflexivity|].
  destruct e; simpl; now rewrite ?IH.
Qed.

(* ================================================================== *)
(** * The signature validator *)
(* ================================================================== *)

(** The loop of [validateHeaderSig] is a lookup followed by the body of its
    branch. *)
Lemma validateHeaderSig_lookup (E : Env) (body : bytes) (headers : Header) :
  validateHeaderSig E headers body =
  match lookupSig headers with
  | None => ret false
  | Some v =>
      if negb (Nat.eqb (List.length v) 1) then
        emit (Stderr "Got suspicious signature") ;; ret false
      else checkSignature E v body
  end.
Proof.
  induction headers as [|[k v] rest IH]; simpl; [reflexivity|].
  destruct (String.eqb (CanonicalHeaderKey k) sigHeaderName); auto.
Qed.

Lemma lookupSig_None (headers : Header) :
  lookupSig headers = None <->
  forall k v, In (k, v) headers -> CanonicalHeaderKey k <> sigHeaderName.
Proof.
  induction headers as [|[k v] rest IH]; simpl.
  - split; [intros _ ? ? []|reflexivity].
  - destruct (String.eqb (CanonicalHeaderKey k) sigHeaderName) eqn:Hk.
    + apply String.eqb_eq in Hk. split; [discriminate|].
      intros H. now elim (H k v); auto.
    + apply String.eqb_neq in Hk. rewrite IH. split.
      * intros H k' v' [Heq|Hin]; [injection Heq as <- <-; exact Hk | eauto].
      * intros H k' v' Hin. eauto.
Qed.

Lemma lookupSig_Some_In (headers : Header) (v : list string) :
  lookupSig headers = Some v ->
  exists k, In (k, v) headers /\ CanonicalHeaderKey k = sigHeaderName.
Proof.
  induction headers as [|[k w] rest IH]; simpl; [discriminate|].
  destruct (String.eqb (CanonicalHeaderKey k) sigHeaderName) eqn:Hk.
  - intros [= <-]. apply String.eqb_eq in Hk. eauto.
  - intros H. destruct (IH H) as (k' & Hin & Hk'). eauto.
Qed.

(** In a map whose keys have pairwise distinct canonical forms (every
    [http.Header] filled by the server is one), the lookup does not depend
    on the visiting order. *)
Lemma lookupSig_unique (headers : Header) (k : string) (v : list string) :
  NoDup (map (fun kv => CanonicalHeaderKey (fst kv)) headers) ->
  In (k, v) headers -> CanonicalHeaderKey k = sigHeaderName ->
  lookupSig headers = Some v.
Proof.
  induction headers as [|[k' w] rest IH]; simpl; [intros _ []|].
  intros Hnd Hin Hk. inversion Hnd as [|? ? Hnotin Hnd']; subst.
  destruct (String.eqb (CanonicalHeaderKey k') sigHeaderName) eqn:Hk'.
  - destruct Hin as [Heq|Hin]; [now injection Heq as <- <-|].
    apply String.eqb_eq in Hk'. exfalso. apply Hnotin.
    rewrite Hk', <- Hk.
    now apply (in_map (fun kv => CanonicalHeaderKey (fst kv)) rest (k, v)).
  - destruct Hin as [Heq|Hin]; [|auto].
    injection Heq as -> ->. apply String.eqb_neq in Hk'. contradiction.
Qed.

Lemma checkSignature_outcome (E : Env) (v : list string) (body : bytes) :
  outcome (checkSignature E v body) =
  Done (match write_error E body with
        | Some _ => false
        | None => hmac_Equal (bytes_of_string (nth 0 v EmptyString))
                    (bytes_of_string (computedSig E body))
        end).
Proof.
  unfold checkSignature, write_error, computedSig.
  destruct (mac_Write (crypto E) (hmac_New (crypto E) (secretToken E)) body)
    as [m [n [e|]]]; simpl; [|reflexivity].
  destruct (n <=? 0); reflexivity.
Qed.

Lemma checkSignature_stderr (E : Env) (v : list string) (body : bytes) :
  match write_error E body with
  | Some _ =>
      In "Failed to write request body to HMAC to calculate signature"
         (stderr_of (trace (checkSignature E v body)))
  | None => trace (checkSignature E v body) = []
  end.
Proof.
  unfold checkSignature, write_error.
  destruct (mac_Write (crypto E) (hmac_New (crypto E) (secretToken E)) body)
    as [m [n [e|]]]; simpl; [|reflexivity].
  destruct (n <=? 0); simpl; auto.
Qed.

Lemma checkSignature_only_stderr (E : Env) (v : list string) (body : bytes) :
  forallb is_stderr (trace (checkSignature E v body)) = true.
Proof.
  unfold checkSignature.
  destruct (mac_Write (crypto E) (hmac_New (crypto E) (secretToken E)) body)
    as [m [n [e|]]]; simpl; [|reflexivity].
  destruct (n <=? 0); reflexivity.
Qed.

(** The validator only ever writes to standard error. *)
Lemma validateHeaderSig_only_stderr (E : Env) (headers : Header) (body : bytes) :
  forallb is_stderr (trace (validateHeaderSig E headers body)) = true.
Proof.
  rewrite validateHeaderSig_lookup.
  destruct (lookupSig headers) as [v|]; [|reflexivity].
  destruct (negb (Nat.eqb (List.length v) 1)); [reflexivity|].
  apply checkSignature_only_stderr.
Qed.

(** The validator always returns: it has no panicking path. *)
Lemma validateHeaderSig_returns (E : Env) (headers : Header) (body : bytes) :
  exists b, outcome (validateHeaderSig E headers body) = Done b.
Proof.
  rewrite validateHeaderSig_lookup.
  destruct (lookupSig headers) as [v|]; [|now exists false].
  destruct (negb (Nat.eqb (List.length v) 1)); [now exists false|].
  rewrite checkSignature_outcome. eauto.
Qed.

(** What a successful validation means. *)
Lemma validateHeaderSig_true (E : Env) (headers : Header) (body : bytes) :
  outcome (validateHeaderSig E headers body) = Done true <->
  lookupSig headers = Some [computedSig E body] /\ write_error E body = None.
Proof.
  rewrite validateHeaderSig_lookup.
  destruct (lookupSig headers) as [v|]; [|split; [discriminate|intros [? _]; discriminate]].
  destruct v as [|s [|s' v]]; simpl;
    try (split; [discriminate|intros [[=] _]]).
  rewrite checkSignature_outcome. simpl.
  destruct (write_error E body) as [e|].
  - split; [discriminate|intros [_ ?]; discriminate].
  - split.
    + intros [= H]. apply hmac_Equal_strings in H. now subst.
    + intros [[= ->] _]. f_equal. now apply hmac_Equal_strings.
Qed.

(** A validation that succeeds is silent. *)
Lemma validateHeaderSig_true_trace (E : Env) (headers : Header) (body : bytes) :
  outcome (validateHeaderSig E headers body) = Done true ->
  trace (validateHeaderSig E headers body) = [].
Proof.
  intros H. apply validateHeaderSig_true in H as [Hl Hw].
  rewrite validateHeaderSig_lookup, Hl. simpl.
  generalize (checkSignature_stderr E [computedSig E body] body).
  now rewrite Hw.
Qed.

(** With Go's [crypto/hmac] the compared string is GitHub's signature. *)
Lemma computedSig_go (E : Env) (body : bytes) :
  crypto E = go_hmac_sha1 ->
  computedSig E body = githubSignature (secretToken E) body
  /\ write_error E body = None.
Proof.
  unfold computedSig, write_error, githubSignature. intros ->.
  unfold go_hmac_sha1. cbn [crypto mac_Write hmac_New mac_Sum fst snd app]. auto.
Qed.

(** First half of the round-trip property: a delivery carrying GitHub's
    signature of its body is accepted. *)
Lemma validateHeaderSig_accepts (E : Env) (headers : Header) (body : bytes) :
  crypto E = go_hmac_sha1 ->
  lookupSig headers = Some [githubSignature (secretToken E) body] ->
  validateHeaderSig E headers body = ([], Done true).
Proof.
  intros Hc Hl. destruct (computedSig_go E body Hc) as [Hs Hw].
  assert (H : outcome (validateHeaderSig E headers body) = Done true).
  { apply validateHeaderSig_true. rewrite Hs. auto. }
  assert (Ht := validateHeaderSig_true_trace E headers body H).
  destruct (validateHeaderSig E headers body) as [t o]. simpl in *. now subst.
Qed.

(** X2: a delivery whose single [X-Hub-Signature] value is the computed
    signature string with any one bit flipped is refused. *)
Lemma flipped_signature_refused
  (E : Env) (headers : Header) (body : bytes) (i : nat) :
  (i < 8 * String.length (computedSig E body))%nat ->
  lookupSig headers = Some [flip_string_bit i (computedSig E body)] ->
  outcome (validateHeaderSig E headers body) = Done false.
Proof.
  intros Hi Hl.
  destruct (validateHeaderSig_returns E headers body) as [[|] Hb]; [|exact Hb].
  apply validateHeaderSig_true in Hb as [Hl' _].
  rewrite Hl in Hl'. injection Hl' as Heq.
  now apply flip_string_bit_neq in Heq.
Qed.

(** On the sample delivery: the signed body is accepted; the same signature
    over the body with its lowest bit flipped, or a signature with one bit
    flipped over the original body, is refused. *)
Example round_trip_sample :
  validateHeaderSig sampleEnv
    (req_Header (delivery [sig_closed_unlabelled] body_closed_unlabelled))
    (bytes_of_string body_closed_unlabelled) = ([], Done true)
  /\ validateHeaderSig sampleEnv
    (req_Header (delivery [sig_closed_unlabelled] body_closed_unlabelled))
    (flip_bit 0 (bytes_of_string body_closed_unlabelled)) = ([], Done false)
  /\ validateHeaderSig sampleEnv
    (req_Header (delivery [flip_string_bit 42 sig_closed_unlabelled] body_closed_unlabelled))
    (bytes_of_string body_closed_unlabelled) = ([], Done false).
Proof. split; [|split]; vm_compute; reflexivity. Qed.

(** C7: the validator returns false whenever the [X-Hub-Signature] header is
    absent, carries zero or several values, or carries one value that
    differs from the computed signature string. *)
Theorem validateHeaderSig_rejects (E : Env) (headers : Header) (body : bytes) :
  lookupSig headers = None
  \/ (exists v, lookupSig headers = Some v /\ List.length v <> 1%nat)
  \/ (exists s, lookupSig headers = Some [s] /\ s <> computedSig E body) ->
  outcome (validateHeaderSig E headers body) = Done false.
Proof.
  intros H.
  destruct (validateHeaderSig_returns E headers body) as [[|] Hb]; [|exact Hb].
  apply validateHeaderSig_true in Hb as [Hl _]. rewrite Hl in H.
  destruct H as [H | [(v & H & Hlen) | (s & H & Hs)]].
  - discriminate.
  - injection H as <-. now elim Hlen.
  - injection H as <-. now elim Hs.
Qed.

Lemma validateHeaderSig_rejects_witness :
  outcome (validateHeaderSig sampleEnv
             (req_Header (unsigned_delivery body_closed_unlabelled))
             (bytes_of_string body_closed_unlabelled)) = Done false
  /\ outcome (validateHeaderSig sampleEnv
             (req_Header (delivery [] body_closed_unlabelled))
             (bytes_of_string body_closed_unlabelled)) = Done false
  /\ outcome (validateHeaderSig sampleEnv
             (req_Header (delivery [sig_closed_unlabelled; sig_closed_unlabelled]
                            body_closed_unlabelled))
             (bytes_of_string body_closed_unlabelled)) = Done false
  /\ outcome (validateHeaderSig sampleEnv
             (req_Header (delivery [sig_without_state] body_closed_unlabelled))
             (bytes_of_string body_closed_unlabelled)) = Done false.
Proof.
  split; [|split; [|split]]; apply validateHeaderSig_rejects.
  - left. reflexivity.
  - right. left. exists []. split; [reflexivity | simpl; lia].
  - right. left. exists [sig_closed_unlabelled; sig_closed_unlabelled].
    split; [reflexivity | simpl; lia].
  - right. right. exists sig_without_state.
    split; [reflexivity | vm_compute; discriminate].
Defined.

(** C10, as the specification words it, fails: on a delivery without an
    [X-Hub-Signature] header the validator returns false and writes nothing
    to standard error. *)
Lemma missing_header_no_diagnostic :
  lookupSig (req_Header (unsigned_delivery body_closed_unlabelled)) = None
  /\ validateHeaderSig sampleEnv
       (req_Header (unsigned_delivery body_closed_unlabelled))
       (bytes_of_string body_closed_unlabelled) = ([], Done false)
  /\ stderr_of (trace (validateHeaderSig sampleEnv
       (req_Header (unsigned_delivery body_closed_unlabelled))
       (bytes_of_string body_closed_unlabelled))) = [].
Proof. split; [|split]; reflexivity. Qed.

(** C10, amended: the validator writes a diagnostic to standard error when
    the [X-Hub-Signature] header is present with zero or several values, and
    when writing the body to the HMAC fails; when the header is missing it
    writes nothing. *)
Theorem validateHeaderSig_diagnostics (E : Env) (headers : Header) (body : bytes) :
  (forall v, lookupSig headers = Some v -> List.length v <> 1%nat ->
     stderr_of (trace (validateHeaderSig E headers body))
     = ["Got suspicious signature"])
  /\ (forall s e, lookupSig headers = Some [s] -> write_error E body = Some e ->
     In "Failed to write request body to HMAC to calculate signature"
        (stderr_of (trace (validateHeaderSig E headers body))))
  /\ (lookupSig headers = None ->
     stderr_of (trace (validateHeaderSig E headers body)) = []).
Proof.
  rewrite validateHeaderSig_lookup. split; [|split].
  - intros v -> Hlen. apply Nat.eqb_neq in Hlen. now rewrite Hlen.
  - intros s e -> Hw. simpl.
    generalize (checkSignature_stderr E [s] body). now rewrite Hw.
  - now intros ->.
Qed.

Lemma validateHeaderSig_diagnostics_witness :
  stderr_of (trace (validateHeaderSig sampleEnv
     (req_Header (delivery [] body_closed_unlabelled))
     (bytes_of_string body_closed_unlabelled))) = ["Got suspicious signature"]
  /\ In "Failed to write request body to HMAC to calculate signature"
       (stderr_of (trace (validateHeaderSig brokenHashEnv
          (req_Header (delivery [sig_closed_unlabelled] body_closed_unlabelled))
          (bytes_of_string body_closed_unlabelled))))
  /\ stderr_of (trace (validateHeaderSig sampleEnv
       (req_Header (unsigned_delivery body_closed_unlabelled))
       (bytes_of_string body_closed_unlabelled))) = [].
Proof.
  split; [|split].
  - apply (proj1 (validateHeaderSig_diagnostics sampleEnv
            (req_Header (delivery [] body_closed_unlabelled))
            (bytes_of_string body_closed_unlabelled)) []);
      [reflexivity | simpl; lia].
  - apply (proj1 (proj2 (validateHeaderSig_diagnostics brokenHashEnv
            (req_Header (delivery [sig_closed_unlabelled] body_closed_unlabelled))
            (bytes_of_string body_closed_unlabelled)))
            sig_closed_unlabelled "short write"); reflexivity.
  - apply (proj2 (proj2 (validateHeaderSig_diagnostics sampleEnv
            (req_Header (unsigned_delivery body_closed_unlabelled))
            (bytes_of_string body_closed_unlabelled)))).
    reflexivity.
Defined.

(* ================================================================== *)
(** * The label policy *)
(* ================================================================== *)

Lemma hasDocLabels_true_iff (labels : list github.Label) :
  hasDocLabels labels = true <->
  exists label, In label labels
    /\ (github.GetName label = docsHasImpact \/ github.GetName label = docsNoImpact).
Proof.
  induction labels as [|l rest IH]; simpl.
  - split; [discriminate | intros (? & [] & _)].
  - destruct (String.eqb (github.GetName l) docsHasImpact) eqn:Hh; simpl.
    { apply String.eqb_eq in Hh. split; [|reflexivity]. intros _. exists l. auto. }
    destruct (String.eqb (github.GetName l) docsNoImpact) eqn:Hn; simpl.
    { apply String.eqb_eq in Hn. split; [|reflexivity]. intros _. exists l. auto. }
    apply String.eqb_neq in Hh, Hn. rewrite IH. split.
    + intros (l' & Hin & Hl'). exists l'. auto.
    + intros (l' & [<-|Hin] & Hl'); [destruct Hl'; contradiction|]. exists l'. auto.
Qed.

(** C3: the label policy, a function from label lists to booleans outside
    the effect monad, answers true exactly when some label is named
    [docs/has-impact] or [docs/no-impact], byte for byte; on the empty list
    it answers false. *)
Theorem hasDocLabels_spec :
  (forall labels : list github.Label,
     hasDocLabels labels = true <->
     exists label, In label labels
       /\ (github.GetName label = "docs/has-impact"
           \/ github.GetName label = "docs/no-impact"))
  /\ hasDocLabels [] = false.
Proof. split; [exact hasDocLabels_true_iff | reflexivity]. Qed.

(** The comparison is sensitive to case, and an unnamed label counts for
    nothing. *)
Example hasDocLabels_case_sensitive :
  hasDocLabels [ {| github.Label_Name := Some "Docs/Has-Impact" |};
                 {| github.Label_Name := Some "DOCS/NO-IMPACT" |};
                 {| github.Label_Name := None |} ] = false
  /\ hasDocLabels [ {| github.Label_Name := Some "bug" |};
                    {| github.Label_Name := Some "docs/no-impact" |} ] = true.
Proof. split; reflexivity. Qed.

(* ================================================================== *)
(** * The issue reopener *)
(* ================================================================== *)

Lemma reopenIssue_invocations (E : Env) (issue : option github.Issue) :
  invocations (trace (reopenIssue E issue)) = 1%nat.
Proof.
  unfold reopenIssue.
  destruct (Issues_CreateComment _ _ _ _ _ _) as [e|]; [reflexivity|].
  destruct (Issues_Edit _ _ _ _ _ _) as [e|]; reflexivity.
Qed.

Lemma reopenIssue_returns (E : Env) (issue : option github.Issue) :
  exists r, outcome (reopenIssue E issue) = Done r.
Proof.
  unfold reopenIssue.
  destruct (Issues_CreateComment _ _ _ _ _ _) as [e|]; [now exists (Some e)|].
  destruct (Issues_Edit _ _ _ _ _ _) as [e|]; [now exists (Some e) | now exists None].
Qed.

(** C6: when posting the comment fails, [reopenIssue] returns that error and
    the edit of the issue's state is not attempted. *)
Theorem reopenIssue_fail_fast (E : Env) (issue : option github.Issue) (err : error) :
  Issues_CreateComment E (githubAccessToken E) repoOwner repoName
    (github.GetNumber issue) reminder = Some err ->
  outcome (reopenIssue E issue) = Done (Some err)
  /\ count is_edit (trace (reopenIssue E issue)) = 0%nat
  /\ count is_comment (trace (reopenIssue E issue)) = 1%nat.
Proof.
  intros H. unfold reopenIssue. rewrite H. split; [|split]; reflexivity.
Qed.

Lemma reopenIssue_fail_fast_witness :
  outcome (reopenIssue forbiddenEnv (Some issue_closed_unlabelled))
  = Done (Some "403 Forbidden")
  /\ count is_edit (trace (reopenIssue forbiddenEnv (Some issue_closed_unlabelled))) = 0%nat
  /\ count is_comment (trace (reopenIssue forbiddenEnv (Some issue_closed_unlabelled))) = 1%nat.
Proof.
  apply (reopenIssue_fail_fast forbiddenEnv (Some issue_closed_unlabelled) "403 Forbidden").
  reflexivity.
Defined.

(** When both calls succeed the comment is posted before the edit. *)
Example reopenIssue_run :
  reopenIssue sampleEnv (Some issue_closed_unlabelled)
  = ([ReopenIssue (Some issue_closed_unlabelled);
      CreateComment "vmware" "vic" 7 reminder;
      EditIssue "vmware" "vic" 7 "open"], Done None).
Proof. reflexivity. Qed.

(* ================================================================== *)
(** * The webhook receiver *)
(* ================================================================== *)

Lemma validateHeaderSig_true_run (E : Env) (headers : Header) (body : bytes) :
  outcome (validateHeaderSig E headers body) = Done true ->
  validateHeaderSig E headers body = ([], Done true).
Proof.
  intros H. assert (Ht := validateHeaderSig_true_trace E headers body H).
  destruct (validateHeaderSig E headers body) as [t o]. simpl in *. now subst.
Qed.

Lemma validateHeaderSig_quiet (p : Effect -> bool) (E : Env) (headers : Header) (body : bytes) :
  (forall e, is_stderr e = true -> p e = false) ->
  count p (trace (validateHeaderSig E headers body)) = 0%nat.
Proof.
  intros Hp. apply (count_disjoint p is_stderr); [exact Hp|].
  apply validateHeaderSig_only_stderr.
Qed.

Lemma stderr_not_reopen (e : Effect) : is_stderr e = true -> is_reopen e = false.
Proof. now destruct e. Qed.

Lemma stderr_not_decode (e : Effect) : is_stderr e = true -> is_decode e = false.
Proof. now destruct e. Qed.

(** The run of the handler on a delivery that passed the signature check
    and decoded to an event with an issue. *)
Lemma receiver_on_issue (E : Env) (req : Request) (body : bytes)
  (event : github.IssueEvent) (issue : github.Issue) :
  req_Body req = (body, None) ->
  outcome (validateHeaderSig E (req_Header req) body) = Done true ->
  json_Decode E body = inr (Some event) ->
  github.IssueEvent_Issue event = Some issue ->
  receiver E req =
  (emit (JsonDecode body) ;;
   match github.Issue_State issue with
   | None => panic nil_dereference
   | Some state =>
       if String.eqb state "closed" && negb (hasDocLabels (github.Issue_Labels issue))
       then
         err <- reopenIssue E (Some issue) ;;
         match err with
         | Some e => emit (Stderr (String.append "Got error reopening issue: " e)) ;; ret tt
         | None => ret tt
         end
       else ret tt
   end).
Proof.
  intros Hbody Hval Hdec Hissue. apply validateHeaderSig_true_run in Hval.
  unfold receiver. rewrite Hbody, Hval.
  cbn [bind negb app emit]. rewrite Hdec, Hissue.
  destruct (github.Issue_State issue) as [state|]; [|reflexivity].
  destruct (String.eqb state "closed" && negb (hasDocLabels (github.Issue_Labels issue)));
    [|reflexivity].
  destruct (reopenIssue E (Some issue)) as [t [[e|]|why]]; reflexivity.
Qed.

Lemma receiver_invocations (E : Env) (req : Request) (body : bytes)
  (event : github.IssueEvent) (issue : github.Issue) :
  req_Body req = (body, None) ->
  outcome (validateHeaderSig E (req_Header req) body) = Done true ->
  json_Decode E body = inr (Some event) ->
  github.IssueEvent_Issue event = Some issue ->
  invocations (trace (receiver E req)) =
  match github.Issue_State issue with
  | Some state =>
      if String.eqb state "closed" && negb (hasDocLabels (github.Issue_Labels issue))
      then 1%nat else 0%nat
  | None => 0%nat
  end.
Proof.
  intros Hbody Hval Hdec Hissue.
  rewrite (receiver_on_issue E req body event issue Hbody Hval Hdec Hissue).
  destruct (github.Issue_State issue) as [state|]; [|reflexivity].
  destruct (String.eqb state "closed" && negb (hasDocLabels (github.Issue_Labels issue)));
    [|reflexivity].
  assert (Hn := reopenIssue_invocations E (Some issue)).
  destruct (reopenIssue E (Some issue)) as [t [[e|]|why]];
    unfold invocations in *; cbn [trace fst bind emit ret app] in *;
    change (JsonDecode body :: ?l) with ([JsonDecode body] ++ l);
    rewrite ?count_app, Hn; reflexivity.
Qed.

(** C1: on a delivery whose signature validates, whose body decodes to an
    event and whose event has an issue, [reopenIssue] is entered exactly
    when the issue's state is [closed] and the label policy answers false;
    with state [open] it is not entered, whatever the labels. *)
Theorem receiver_reopens_iff (E : Env) (req : Request) (body : bytes)
  (event : github.IssueEvent) (issue : github.Issue) :
  req_Body req = (body, None) ->
  outcome (validateHeaderSig E (req_Header req) body) = Done true ->
  json_Decode E body = inr (Some event) ->
  github.IssueEvent_Issue event = Some issue ->
  ((0 < invocations (trace (receiver E req)))%nat <->
     github.Issue_State issue = Some "closed"
     /\ hasDocLabels (github.Issue_Labels issue) = false)
  /\ (github.Issue_State issue = Some "open" ->
      invocations (trace (receiver E req)) = 0%nat).
Proof.
  intros Hbody Hval Hdec Hissue.
  rewrite (receiver_invocations E req body event issue Hbody Hval Hdec Hissue).
  destruct (github.Issue_State issue) as [state|].
  - split.
    + destruct (String.eqb state "closed") eqn:Hst;
        destruct (hasDocLabels (github.Issue_Labels issue)); simpl.
      * split; [lia | intros [_ ?]; discriminate].
      * apply String.eqb_eq in Hst. subst. split; [auto | lia].
      * split; [lia | intros [_ ?]; discriminate].
      * apply String.eqb_neq in Hst. split; [lia | intros [[= ?] _]; contradiction].
    + intros [= ->]. reflexivity.
  - split; [|discriminate]. split; [lia | intros [? _]; discriminate].
Qed.

Lemma receiver_reopens_iff_witness :
  ((0 < invocations (trace (receiver sampleEnv
           (delivery [sig_closed_unlabelled] body_closed_unlabelled))))%nat <->
     github.Issue_State issue_closed_unlabelled = Some "closed"
     /\ hasDocLabels (github.Issue_Labels issue_closed_unlabelled) = false)
  /\ (github.Issue_State issue_closed_unlabelled = Some "open" ->
      invocations (trace (receiver sampleEnv
           (delivery [sig_closed_unlabelled] body_closed_unlabelled))) = 0%nat).
Proof.
  apply (receiver_reopens_iff sampleEnv
           (delivery [sig_closed_unlabelled] body_closed_unlabelled)
           (bytes_of_string body_closed_unlabelled)
           {| github.IssueEvent_Issue := Some issue_closed_unlabelled |}
           issue_closed_unlabelled).
  - reflexivity.
  - vm_compute. reflexivity.
  - vm_compute. reflexivity.
  - reflexivity.
Defined.

(** The whole run on the closed, unlabelled issue 7. *)
Example receiver_run_closed_unlabelled :
  receiver sampleEnv (delivery [sig_closed_unlabelled] body_closed_unlabelled)
  = ([JsonDecode (bytes_of_string body_closed_unlabelled);
      ReopenIssue (Some issue_closed_unlabelled);
      CreateComment "vmware" "vic" 7 reminder;
      EditIssue "vmware" "vic" 7 "open"], Done tt).
Proof. vm_compute. reflexivity. Qed.

(** C4 does not hold of the code: on a correctly signed delivery whose issue
    object has no [state] member, evaluating the reopen condition
    dereferences a nil pointer and the handler panics. *)
Theorem receiver_panics_without_state :
  lookupSig (req_Header (delivery [sig_without_state] body_without_state))
    = Some [githubSignature (secretToken sampleEnv) (bytes_of_string body_without_state)]
  /\ json_Decode sampleEnv (bytes_of_string body_without_state)
     = inr (Some {| github.IssueEvent_Issue := Some issue_without_state |})
  /\ receiver sampleEnv (delivery [sig_without_state] body_without_state)
     = ([JsonDecode (bytes_of_string body_without_state)], Panic nil_dereference).
Proof. split; [|split]; vm_compute; reflexivity. Qed.

(** The same in general: whenever the decoded issue has no state, the
    handler panics right after decoding. *)
Lemma receiver_nil_state (E : Env) (req : Request) (body : bytes)
  (event : github.IssueEvent) (issue : github.Issue) :
  req_Body req = (body, None) ->
  outcome (validateHeaderSig E (req_Header req) body) = Done true ->
  json_Decode E body = inr (Some event) ->
  github.IssueEvent_Issue event = Some issue ->
  github.Issue_State issue = None ->
  receiver E req = ([JsonDecode body], Panic nil_dereference).
Proof.
  intros Hbody Hval Hdec Hissue Hstate.
  rewrite (receiver_on_issue E req body event issue Hbody Hval Hdec Hissue), Hstate.
  reflexivity.
Qed.

(** With a state present the reopen condition is evaluated without fault. *)
Lemma receiver_with_state_returns (E : Env) (req : Request) (body : bytes)
  (event : github.IssueEvent) (issue : github.Issue) (state : string) :
  req_Body req = (body, None) ->
  outcome (validateHeaderSig E (req_Header req) body) = Done true ->
  json_Decode E body = inr (Some event) ->
  github.IssueEvent_Issue event = Some issue ->
  github.Issue_State issue = Some state ->
  outcome (receiver E req) = Done tt.
Proof.
  intros Hbody Hval Hdec Hissue Hstate.
  rewrite (receiver_on_issue E req body event issue Hbody Hval Hdec Hissue), Hstate.
  destruct (String.eqb state "closed" && negb (hasDocLabels (github.Issue_Labels issue)));
    [|reflexivity].
  destruct (reopenIssue_returns E (Some issue)) as [r Hr].
  destruct (reopenIssue E (Some issue)) as [t o]. simpl in Hr. subst o.
  destruct r; reflexivity.
Qed.

Lemma receiver_invocations_le (E : Env) (req : Request) :
  (invocations (trace (receiver E req)) <= 1)%nat.
Proof.
  unfold receiver, invocations. destruct (req_Body req) as [body [e|]].
  { run_trace. autorewrite with count. simpl. lia. }
  assert (Hq := validateHeaderSig_quiet is_reopen E (req_Header req) body stderr_not_reopen).
  destruct (validateHeaderSig E (req_Header req) body) as [t [[|]|why]];
    cbn [trace fst] in Hq; cbn [bind negb].
  - destruct (json_Decode E body) as [e|[event|]].
    + run_trace. autorewrite with count. rewrite Hq. simpl. lia.
    + destruct (github.IssueEvent_Issue event) as [issue|].
      * destruct (github.Issue_State issue) as [state|].
        -- destruct (String.eqb state "closed"
                     && negb (hasDocLabels (github.Issue_Labels issue))).
           ++ assert (Hn := reopenIssue_invocations E (Some issue)).
              unfold invocations in Hn.
              destruct (reopenIssue E (Some issue)) as [t' [[e|]|why]];
                run_trace; autorewrite with count; rewrite Hq, Hn; simpl; lia.
           ++ run_trace. autorewrite with count. rewrite Hq. simpl. lia.
        -- run_trace. autorewrite with count. rewrite Hq. simpl. lia.
      * run_trace. autorewrite with count. rewrite Hq. simpl. lia.
    + run_trace. autorewrite with count. rewrite Hq. simpl. lia.
  - run_trace. autorewrite with count. rewrite Hq. simpl. lia.
  - run_trace. rewrite Hq. lia.
Qed.

(** C9: one run of the handler enters [reopenIssue] at most once, and
    exactly once when the delivery passes the signature check and decodes to
    an event whose issue is closed and has no labels. *)
Theorem receiver_reopens_at_most_once (E : Env) (req : Request) :
  (invocations (trace (receiver E req)) <= 1)%nat
  /\ (forall body event issue,
        req_Body req = (body, None) ->
        outcome (validateHeaderSig E (req_Header req) body) = Done true ->
        json_Decode E body = inr (Some event) ->
        github.IssueEvent_Issue event = Some issue ->
        github.Issue_State issue = Some "closed" ->
        github.Issue_Labels issue = [] ->
        invocations (trace (receiver E req)) = 1%nat).
Proof.
  split; [apply receiver_invocations_le|].
  intros body event issue Hbody Hval Hdec Hissue Hstate Hlabels.
  rewrite (receiver_invocations E req body event issue Hbody Hval Hdec Hissue).
  now rewrite Hstate, Hlabels.
Qed.

Lemma receiver_reopens_at_most_once_witness :
  (invocations (trace (receiver sampleEnv
      (delivery [sig_closed_unlabelled] body_closed_unlabelled))) <= 1)%nat
  /\ invocations (trace (receiver sampleEnv
      (delivery [sig_closed_unlabelled] body_closed_unlabelled))) = 1%nat.
Proof.
  destruct (receiver_reopens_at_most_once sampleEnv
              (delivery [sig_closed_unlabelled] body_closed_unlabelled))
    as [Hle Hone].
  split; [exact Hle|].
  apply (Hone (bytes_of_string body_closed_unlabelled)
              {| github.IssueEvent_Issue := Some issue_closed_unlabelled |}
              issue_closed_unlabelled).
  - reflexivity.
  - vm_compute. reflexivity.
  - vm_compute. reflexivity.
  - reflexivity.
  - reflexivity.
  - reflexivity.
Defined.

(** C5: a delivery in which no header name canonicalises to
    [X-Hub-Signature] never reaches the JSON decoder; the handler returns
    without decoding or reopening. *)
Theorem receiver_unsigned_not_decoded (E : Env) (req : Request) :
  (forall k v, In (k, v) (req_Header req) -> CanonicalHeaderKey k <> "X-Hub-Signature") ->
  decodes (trace (receiver E req)) = 0%nat
  /\ invocations (trace (receiver E req)) = 0%nat
  /\ outcome (receiver E req) = Done tt.
Proof.
  intros H. apply lookupSig_None in H. unfold receiver, decodes, invocations.
  destruct (req_Body req) as [body [e|]].
  - split; [|split]; reflexivity.
  - rewrite validateHeaderSig_lookup, H. split; [|split]; reflexivity.
Qed.

Lemma receiver_unsigned_not_decoded_witness :
  decodes (trace (receiver sampleEnv (unsigned_delivery body_closed_unlabelled))) = 0%nat
  /\ invocations (trace (receiver sampleEnv (unsigned_delivery body_closed_unlabelled))) = 0%nat
  /\ outcome (receiver sampleEnv (unsigned_delivery body_closed_unlabelled)) = Done tt.
Proof.
  apply (receiver_unsigned_not_decoded sampleEnv (unsigned_delivery body_closed_unlabelled)).
  intros k v [[= <- <-]|[]]. vm_compute. discriminate.
Defined.

(** C8: when reading the body fails the handler answers 400 and does
    nothing else: its whole run is the log line and the error response. *)
Theorem receiver_read_failure (E : Env) (req : Request) (data : bytes) (e : error) :
  req_Body req = (data, Some e) ->
  receiver E req =
    ([LogPrintf (String.append "Error reading body: " e);
      HttpError "can't read body" 400], Done tt)
  /\ status_of (trace (receiver E req)) = 400.
Proof.
  intros H. unfold receiver. rewrite H. split; reflexivity.
Qed.

Lemma receiver_read_failure_witness :
  receiver sampleEnv interrupted_delivery =
    ([LogPrintf "Error reading body: unexpected EOF";
      HttpError "can't read body" 400], Done tt)
  /\ status_of (trace (receiver sampleEnv interrupted_delivery)) = 400.
Proof.
  apply (receiver_read_failure sampleEnv interrupted_delivery (bytes_of_string "{")
           "unexpected EOF").
  reflexivity.
Defined.

(** A delivery that is read, authenticated and handled sets no status. *)
Example receiver_default_status :
  status_of (trace (receiver sampleEnv
     (delivery [sig_closed_unlabelled] body_closed_unlabelled))) = 200.
Proof. vm_compute. reflexivity. Qed.

(* ================================================================== *)
(** * More on the signature validator *)
(* ================================================================== *)

Lemma flipped_signature_refused_witness :
  outcome (validateHeaderSig sampleEnv
     (req_Header (delivery
        [flip_string_bit 42
           (computedSig sampleEnv (bytes_of_string body_closed_unlabelled))]
        body_closed_unlabelled))
     (bytes_of_string body_closed_unlabelled)) = Done false.
Proof.
  apply (flipped_signature_refused sampleEnv
           (req_Header (delivery
              [flip_string_bit 42
                 (computedSig sampleEnv (bytes_of_string body_closed_unlabelled))]
              body_closed_unlabelled))
           (bytes_of_string body_closed_unlabelled) 42).
  - vm_compute. lia.
  - vm_compute. reflexivity.
Defined.

(** X1: with Go's [crypto/hmac], the validator answers true exactly when the
    [X-Hub-Signature] header carries the single value [sha1=] followed by
    the hex HMAC-SHA1 of the body under the secret; when it answers true it
    has written nothing. *)
Theorem validateHeaderSig_go_iff (E : Env) (headers : Header) (body : bytes) :
  crypto E = go_hmac_sha1 ->
  (outcome (validateHeaderSig E headers body) = Done true <->
   lookupSig headers = Some [githubSignature (secretToken E) body])
  /\ (outcome (validateHeaderSig E headers body) = Done true ->
      trace (validateHeaderSig E headers body) = []).
Proof.
  intros Hc. destruct (computedSig_go E body Hc) as [Hs Hw].
  split; [|apply validateHeaderSig_true_trace].
  rewrite validateHeaderSig_true, Hs. split; [now intros [? _] | auto].
Qed.

Lemma validateHeaderSig_go_iff_witness :
  (outcome (validateHeaderSig sampleEnv
      (req_Header (signed_delivery sampleEnv body_closed_unlabelled))
      (bytes_of_string body_closed_unlabelled)) = Done true <->
   lookupSig (req_Header (signed_delivery sampleEnv body_closed_unlabelled))
   = Some [githubSignature (secretToken sampleEnv)
             (bytes_of_string body_closed_unlabelled)])
  /\ (outcome (validateHeaderSig sampleEnv
      (req_Header (signed_delivery sampleEnv body_closed_unlabelled))
      (bytes_of_string body_closed_unlabelled)) = Done true ->
      trace (validateHeaderSig sampleEnv
      (req_Header (signed_delivery sampleEnv body_closed_unlabelled))
      (bytes_of_string body_closed_unlabelled)) = []).
Proof.
  apply (validateHeaderSig_go_iff sampleEnv
           (req_Header (signed_delivery sampleEnv body_closed_unlabelled))
           (bytes_of_string body_closed_unlabelled)).
  reflexivity.
Defined.

Lemma lookupSig_perm (h1 h2 : Header) :
  Permutation h1 h2 -> NoDup (canonical_keys_of h1) -> lookupSig h1 = lookupSig h2.
Proof.
  intros Hp Hnd.
  assert (Hnd2 : NoDup (canonical_keys_of h2)).
  { apply (Permutation_NoDup (l := canonical_keys_of h1)); [|exact Hnd].
    unfold canonical_keys_of. now apply Permutation_map. }
  destruct (lookupSig h1) as [v|] eqn:H1.
  - apply lookupSig_Some_In in H1 as (k & Hin & Hk). symmetry.
    apply (lookupSig_unique h2 k v Hnd2); [|exact Hk].
    now apply (Permutation_in _ Hp).
  - symmetry. apply lookupSig_None. intros k v Hin.
    apply (proj1 (lookupSig_None h1) H1 k v).
    apply (Permutation_in _ (Permutation_sym Hp) Hin).
Qed.

(** X3: on a header map whose keys have pairwise distinct canonical forms
    the validator's run (result and diagnostics) does not depend on the
    order in which the [range] loop visits the entries. *)
Theorem validateHeaderSig_order_independent
  (E : Env) (h1 h2 : Header) (body : bytes) :
  Permutation h1 h2 ->
  NoDup (canonical_keys_of h1) ->
  validateHeaderSig E h1 body = validateHeaderSig E h2 body.
Proof.
  intros Hp Hnd. rewrite !validateHeaderSig_lookup.
  now rewrite (lookupSig_perm h1 h2 Hp Hnd).
Qed.

Lemma validateHeaderSig_order_independent_witness :
  validateHeaderSig sampleEnv
    [("Content-Type", ["application/json"]); ("X-Hub-Signature", [sig_closed_unlabelled])]
    (bytes_of_string body_closed_unlabelled)
  = validateHeaderSig sampleEnv
    [("X-Hub-Signature", [sig_closed_unlabelled]); ("Content-Type", ["application/json"])]
    (bytes_of_string body_closed_unlabelled).
Proof.
  apply (validateHeaderSig_order_independent sampleEnv
           [("Content-Type", ["application/json"]); ("X-Hub-Signature", [sig_closed_unlabelled])]
           [("X-Hub-Signature", [sig_closed_unlabelled]); ("Content-Type", ["application/json"])]
           (bytes_of_string body_closed_unlabelled)).
  - apply perm_swap.
  - vm_compute. constructor; [|constructor; [|constructor]].
    + intros [H|[]]. discriminate H.
    + intros [].
Defined.

(** X4: on a raw map that holds the header under two spellings the answer
    depends on the visiting order: the same map, whose keys are distinct
    strings, is accepted in one order and refused in the other. *)
Theorem validateHeaderSig_order_dependent :
  exists (h : Header) (body : bytes),
    NoDup (map fst h)
    /\ Permutation h (rev h)
    /\ outcome (validateHeaderSig sampleEnv h body) = Done true
    /\ outcome (validateHeaderSig sampleEnv (rev h) body) = Done false.
Proof.
  exists (two_spellings body_closed_unlabelled), (bytes_of_string body_closed_unlabelled).
  split; [|split; [|split]].
  - simpl. constructor; [|constructor; [|constructor]].
    + intros [H|[]]. discriminate H.
    + intros [].
  - apply Permutation_rev.
  - vm_compute. reflexivity.
  - vm_compute. reflexivity.
Qed.

Lemma canonical_step_facts (u : bool) (c : ascii) :
  canonical_step u (canonical_step u c) = canonical_step u c
  /\ validHeaderFieldByte (canonical_step u c) = validHeaderFieldByte c.
Proof.
  destruct u; destruct c as [[] [] [] [] [] [] [] []]; vm_compute; split; reflexivity.
Qed.

Lemma canonical_loop_idem (s : string) : forall u : bool,
  canonical_loop u (canonical_loop u s) = canonical_loop u s.
Proof.
  induction s as [|c s IH]; intros u; [reflexivity|].
  change (canonical_loop u (String c s))
    with (String (canonical_step u c)
            (canonical_loop (Ascii.eqb (canonical_step u c) "-") s)).
  change (canonical_loop u (String ?d ?r))
    with (String (canonical_step u d)
            (canonical_loop (Ascii.eqb (canonical_step u d) "-") r)).
  rewrite (proj1 (canonical_step_facts u c)). now rewrite IH.
Qed.

Lemma canonical_loop_valid (s : string) : forall u : bool,
  all_ascii validHeaderFieldByte (canonical_loop u s)
  = all_ascii validHeaderFieldByte s.
Proof.
  induction s as [|c s IH]; intros u; [reflexivity|].
  change (canonical_loop u (String c s))
    with (String (canonical_step u c)
            (canonical_loop (Ascii.eqb (canonical_step u c) "-") s)).
  cbn [all_ascii]. rewrite (proj2 (canonical_step_facts u c)). now rewrite IH.
Qed.

Lemma CanonicalHeaderKey_idem (s : string) :
  CanonicalHeaderKey (CanonicalHeaderKey s) = CanonicalHeaderKey s.
Proof.
  unfold CanonicalHeaderKey.
  destruct (all_ascii validHeaderFieldByte s) eqn:Hv.
  - rewrite canonical_loop_valid, Hv. apply canonical_loop_idem.
  - now rewrite Hv.
Qed.

Lemma lookupSig_canonical (headers : Header) :
  lookupSig (canonical_header headers) = lookupSig headers.
Proof.
  induction headers as [|[k v] rest IH]; [reflexivity|].
  cbn [canonical_header map lookupSig fst snd]. rewrite CanonicalHeaderKey_idem.
  fold (canonical_header rest). now rewrite IH.
Qed.

(** X5: the validator sees header names only through their canonical form:
    canonicalising every key of the map first (as the HTTP server does when
    it parses a request) changes nothing in its run, so the header is found
    under any spelling of its letters' case. *)
Theorem validateHeaderSig_canonical (E : Env) (headers : Header) (body : bytes) :
  validateHeaderSig E (canonical_header headers) body
  = validateHeaderSig E headers body.
Proof.
  rewrite !validateHeaderSig_lookup. now rewrite lookupSig_canonical.
Qed.

(** X6: the validator does nothing but write to standard error, and at
    most two lines of it: it never touches the response, the decoder or
    the GitHub API. *)
Theorem validateHeaderSig_effects (E : Env) (headers : Header) (body : bytes) :
  Forall (fun e => is_stderr e = true) (trace (validateHeaderSig E headers body))
  /\ (List.length (trace (validateHeaderSig E headers body)) <= 2)%nat.
Proof.
  split.
  - apply Forall_forall. intros e He.
    assert (H := validateHeaderSig_only_stderr E headers body).
    rewrite forallb_forall in H. auto.
  - rewrite validateHeaderSig_lookup.
    destruct (lookupSig headers) as [v|]; [|simpl; lia].
    destruct (negb (Nat.eqb (List.length v) 1)); [simpl; lia|].
    unfold checkSignature.
    destruct (mac_Write (crypto E) (hmac_New (crypto E) (secretToken E)) body)
      as [m [n [e|]]]; [|simpl; lia].
    destruct (n <=? 0); simpl; lia.
Qed.

(** X7: [main] does not insist on a secret.  When
    [DOC_ENFORCER_SECRET_TOKEN] is not set the validator runs with the empty
    key, and accepts any body that comes with its HMAC-SHA1 under the empty
    key. *)
Theorem unset_secret_accepts_empty_key
  (getenv : string -> string) (world : Env) (headers : Header) (body : bytes) :
  crypto world = go_hmac_sha1 ->
  getenv "DOC_ENFORCER_SECRET_TOKEN" = EmptyString ->
  lookupSig headers = Some [githubSignature [] body] ->
  validateHeaderSig (main_config getenv world) headers body = ([], Done true).
Proof.
  intros Hc Hs Hl. apply validateHeaderSig_accepts; [exact Hc|].
  cbn [main_config secretToken]. now rewrite Hs.
Qed.

Lemma unset_secret_accepts_empty_key_witness :
  validateHeaderSig (main_config (fun _ => EmptyString) sampleEnv)
    [("X-Hub-Signature", ["sha1=3c0554d704afcb1c4c81196484ca38a8c4d5cb9e"])]
    (bytes_of_string "null") = ([], Done true).
Proof.
  apply (unset_secret_accepts_empty_key (fun _ => EmptyString) sampleEnv
           [("X-Hub-Signature", ["sha1=3c0554d704afcb1c4c81196484ca38a8c4d5cb9e"])]
           (bytes_of_string "null")).
  - reflexivity.
  - reflexivity.
  - vm_compute. reflexivity.
Defined.

(* ================================================================== *)
(** * More on the issue reopener *)
(* ================================================================== *)

(** X8: [reopenIssue] returns the first error among its two calls, nil when
    both succeed, and writes a line to standard error exactly when it
    returns an error. *)
Theorem reopenIssue_result (E : Env) (issue : option github.Issue) :
  outcome (reopenIssue E issue)
  = Done (match Issues_CreateComment E (githubAccessToken E) repoOwner repoName
                  (github.GetNumber issue) reminder with
          | Some err => Some err
          | None => Issues_Edit E (githubAccessToken E) repoOwner repoName
                      (github.GetNumber issue) "open"
          end)
  /\ (stderr_of (trace (reopenIssue E issue)) = [] <->
      outcome (reopenIssue E issue) = Done None).
Proof.
  unfold reopenIssue.
  destruct (Issues_CreateComment _ _ _ _ _ _) as [e|].
  - split; [reflexivity|]. split; discriminate.
  - destruct (Issues_Edit _ _ _ _ _ _) as [e|].
    + split; [reflexivity|]. split; discriminate.
    + split; [reflexivity|]. split; reflexivity.
Qed.

(** X9: [reopenIssue] posts the comment exactly once, and attempts the edit
    exactly when the comment was accepted, once. *)
Theorem reopenIssue_calls (E : Env) (issue : option github.Issue) :
  count is_comment (trace (reopenIssue E issue)) = 1%nat
  /\ count is_edit (trace (reopenIssue E issue))
     = match Issues_CreateComment E (githubAccessToken E) repoOwner repoName
               (github.GetNumber issue) reminder with
       | Some _ => 0%nat
       | None => 1%nat
       end.
Proof.
  unfold reopenIssue.
  destruct (Issues_CreateComment _ _ _ _ _ _) as [e|]; [split; reflexivity|].
  destruct (Issues_Edit _ _ _ _ _ _) as [e|]; split; reflexivity.
Qed.

(** X10: every API call of [reopenIssue] goes to the repository
    [vmware/vic] and to the number of the issue it was given; an issue
    whose number is nil is addressed as issue 0. *)
Theorem reopenIssue_targets (E : Env) (issue : github.Issue) :
  Forall (addresses "vmware" "vic"
            (match github.Issue_Number issue with Some n => n | None => 0 end))
         (trace (reopenIssue E (Some issue))).
Proof.
  unfold reopenIssue. cbn [github.GetNumber].
  destruct (Issues_CreateComment _ _ _ _ _ _) as [e|].
  - repeat constructor.
  - destruct (Issues_Edit _ _ _ _ _ _) as [e|]; repeat constructor.
Qed.

(** X11: when the comment is accepted and the edit fails, [reopenIssue]
    returns the edit's error and leaves the comment posted: its run is the
    comment, the edit and one line on standard error, with no further
    call. *)
Theorem reopenIssue_partial_failure (E : Env) (issue : option github.Issue) (err : error) :
  Issues_CreateComment E (githubAccessToken E) repoOwner repoName
    (github.GetNumber issue) reminder = None ->
  Issues_Edit E (githubAccessToken E) repoOwner repoName
    (github.GetNumber issue) "open" = Some err ->
  reopenIssue E issue
  = ([ReopenIssue issue;
      CreateComment "vmware" "vic" (github.GetNumber issue) reminder;
      EditIssue "vmware" "vic" (github.GetNumber issue) "open";
      Stderr (String.append "Got " (String.append err " trying to reopen the issue"))],
     Done (Some err))
  /\ count is_api (trace (reopenIssue E issue)) = 2%nat.
Proof.
  intros Hc He. unfold reopenIssue. rewrite Hc, He. split; reflexivity.
Qed.

Lemma reopenIssue_partial_failure_witness :
  reopenIssue (apiEnv None (Some "422 Unprocessable Entity")) (Some issue_closed_unlabelled)
  = ([ReopenIssue (Some issue_closed_unlabelled);
      CreateComment "vmware" "vic" (github.GetNumber (Some issue_closed_unlabelled)) reminder;
      EditIssue "vmware" "vic" (github.GetNumber (Some issue_closed_unlabelled)) "open";
      Stderr (String.append "Got "
                (String.append "422 Unprocessable Entity" " trying to reopen the issue"))],
     Done (Some "422 Unprocessable Entity"))
  /\ count is_api (trace (reopenIssue (apiEnv None (Some "422 Unprocessable Entity"))
                            (Some issue_closed_unlabelled))) = 2%nat.
Proof.
  apply (reopenIssue_partial_failure (apiEnv None (Some "422 Unprocessable Entity"))
           (Some issue_closed_unlabelled) "422 Unprocessable Entity");
    reflexivity.
Defined.

(* ================================================================== *)
(** * More on the label policy *)
(* ================================================================== *)

Lemma getLabels_map (labels : list github.Label) :
  getLabels labels = map github.GetName labels.
Proof. induction labels as [|l rest IH]; simpl; now rewrite ?IH. Qed.

(** X12: the policy is a membership test on the names [getLabels] returns:
    it answers true exactly when one of the two constants is among them. *)
Theorem hasDocLabels_getLabels (labels : list github.Label) :
  hasDocLabels labels = true <->
  In "docs/has-impact" (getLabels labels) \/ In "docs/no-impact" (getLabels labels).
Proof.
  rewrite hasDocLabels_true_iff, getLabels_map. split.
  - intros (l & Hin & [H|H]); [left|right]; apply in_map_iff; exists l; auto.
  - intros [H|H]; apply in_map_iff in H as (l & Hl & Hin); exists l; auto.
Qed.

(** X13: the policy of a concatenation is the disjunction of the policies;
    in particular adding labels never turns a satisfied policy off, and
    unrelated labels do not matter. *)
Theorem hasDocLabels_app (a b : list github.Label) :
  hasDocLabels (a ++ b) = hasDocLabels a || hasDocLabels b.
Proof.
  induction a as [|l a IH]; simpl; [reflexivity|].
  destruct (String.eqb (github.GetName l) docsHasImpact
            || String.eqb (github.GetName l) docsNoImpact); auto.
Qed.

(** X14: the policy does not depend on the order of the labels. *)
Theorem hasDocLabels_permutation (a b : list github.Label) :
  Permutation a b -> hasDocLabels a = hasDocLabels b.
Proof.
  intros Hp.
  destruct (hasDocLabels a) eqn:Ha; destruct (hasDocLabels b) eqn:Hb; try reflexivity.
  - apply hasDocLabels_true_iff in Ha as (l & Hin & Hl).
    assert (H : hasDocLabels b = true).
    { apply hasDocLabels_true_iff. exists l. split; [|exact Hl].
      now apply (Permutation_in _ Hp). }
    congruence.
  - apply hasDocLabels_true_iff in Hb as (l & Hin & Hl).
    assert (H : hasDocLabels a = true).
    { apply hasDocLabels_true_iff. exists l. split; [|exact Hl].
      now apply (Permutation_in _ (Permutation_sym Hp)). }
    congruence.
Qed.

Lemma hasDocLabels_permutation_witness :
  hasDocLabels [ {| github.Label_Name := Some "bug" |};
                 {| github.Label_Name := Some "docs/no-impact" |} ]
  = hasDocLabels [ {| github.Label_Name := Some "docs/no-impact" |};
                   {| github.Label_Name := Some "bug" |} ].
Proof.
  apply (hasDocLabels_permutation
           [ {| github.Label_Name := Some "bug" |};
             {| github.Label_Name := Some "docs/no-impact" |} ]
           [ {| github.Label_Name := Some "docs/no-impact" |};
             {| github.Label_Name := Some "bug" |} ]).
  apply perm_swap.
Defined.

(** X15: [getLabels] returns one name per label, in the labels' order; a
    label without a name contributes the empty string. *)
Theorem getLabels_nth (labels : list github.Label) :
  List.length (getLabels labels) = List.length labels
  /\ forall i : nat,
       nth_error (getLabels labels) i
       = match nth_error labels i with
         | Some l => Some (match github.Label_Name l with
                           | Some n => n
                           | None => EmptyString
                           end)
         | None => None
         end.
Proof.
  rewrite getLabels_map. split; [apply length_map|].
  intros i. rewrite nth_error_map. now destruct (nth_error labels i).
Qed.

(* ================================================================== *)
(** * More on the webhook receiver *)
(* ================================================================== *)

Lemma stderr_not_api (e : Effect) : is_stderr e = true -> is_api e = false.
Proof. now destruct e. Qed.

Lemma stderr_not_http_error (e : Effect) : is_stderr e = true -> is_http_error e = false.
Proof. now destruct e. Qed.

Lemma status_of_app (t t' : Trace) :
  count is_http_error t = 0%nat -> status_of (t ++ t') = status_of t'.
Proof.
  induction t as [|e t IH]; [reflexivity|].
  rewrite count_cons. destruct e; cbn [is_http_error app status_of]; intros H;
    try (apply IH; lia); lia.
Qed.

Lemma reopenIssue_no_http_error (E : Env) (issue : option github.Issue) :
  count is_http_error (trace (reopenIssue E issue)) = 0%nat.
Proof.
  unfold reopenIssue.
  destruct (Issues_CreateComment _ _ _ _ _ _) as [e|]; [reflexivity|].
  destruct (Issues_Edit _ _ _ _ _ _) as [e|]; reflexivity.
Qed.

(** The run of the handler once the body is read and the signature
    refused. *)
Lemma receiver_refused (E : Env) (req : Request) (body : bytes) :
  req_Body req = (body, None) ->
  outcome (validateHeaderSig E (req_Header req) body) = Done false ->
  receiver E req = (trace (validateHeaderSig E (req_Header req) body), Done tt).
Proof.
  intros Hbody Hval. unfold receiver. rewrite Hbody.
  destruct (validateHeaderSig E (req_Header req) body) as [t o].
  cbn [outcome snd] in Hval. subst o. run_trace. now rewrite app_nil_r.
Qed.

(** The run of the handler once the body is read and the signature
    accepted, up to the decoded event. *)
Lemma receiver_accepted (E : Env) (req : Request) (body : bytes) :
  req_Body req = (body, None) ->
  outcome (validateHeaderSig E (req_Header req) body) = Done true ->
  match json_Decode E body with
  | inl e =>
      receiver E req
      = ([JsonDecode body; Stderr (String.append "Could not decode json: " e)], Done tt)
  | inr None => receiver E req = ([JsonDecode body], Panic nil_dereference)
  | inr (Some event) =>
      match github.IssueEvent_Issue event with
      | None => receiver E req = ([JsonDecode body], Done tt)
      | Some issue =>
          match github.Issue_State issue with
          | None => receiver E req = ([JsonDecode body], Panic nil_dereference)
          | Some state =>
              if String.eqb state "closed"
                 && negb (hasDocLabels (github.Issue_Labels issue))
              then
                receiver E req
                = (JsonDecode body :: trace (reopenIssue E (Some issue))
                     ++ match outcome (reopenIssue E (Some issue)) with
                        | Done (Some e) =>
                            [Stderr (String.append "Got error reopening issue: " e)]
                        | _ => []
                        end,
                   Done tt)
              else receiver E req = ([JsonDecode body], Done tt)
          end
      end
  end.
Proof.
  intros Hbody Hval. apply validateHeaderSig_true_run in Hval.
  unfold receiver. rewrite Hbody, Hval. cbn [bind negb app emit].
  destruct (json_Decode E body) as [e|[event|]]; [reflexivity| |reflexivity].
  destruct (github.IssueEvent_Issue event) as [issue|]; [|reflexivity].
  destruct (github.Issue_State issue) as [state|]; [|reflexivity].
  destruct (String.eqb state "closed" && negb (hasDocLabels (github.Issue_Labels issue)));
    [|reflexivity].
  destruct (reopenIssue_returns E (Some issue)) as [r Hr].
  destruct (reopenIssue E (Some issue)) as [t o]. cbn [outcome snd] in Hr. subst o.
  destruct r; reflexivity.
Qed.

(** X16: whatever makes the validator answer false, the handler stops
    there: its run is the validator's run (diagnostics only), it returns
    normally, and it decodes nothing, sets no status and calls no API. *)
Theorem receiver_refused_stops (E : Env) (req : Request) (body : bytes) :
  req_Body req = (body, None) ->
  outcome (validateHeaderSig E (req_Header req) body) = Done false ->
  receiver E req = (trace (validateHeaderSig E (req_Header req) body), Done tt)
  /\ decodes (trace (receiver E req)) = 0%nat
  /\ count is_api (trace (receiver E req)) = 0%nat
  /\ status_of (trace (receiver E req)) = 200.
Proof.
  intros Hbody Hval. rewrite (receiver_refused E req body Hbody Hval).
  cbn [trace fst]. split; [reflexivity|]. split; [|split].
  - apply validateHeaderSig_quiet, stderr_not_decode.
  - apply validateHeaderSig_quiet, stderr_not_api.
  - rewrite <- (app_nil_r (trace (validateHeaderSig E (req_Header req) body))).
    rewrite status_of_app; [reflexivity|].
    apply validateHeaderSig_quiet, stderr_not_http_error.
Qed.

Lemma receiver_refused_stops_witness :
  receiver sampleEnv (delivery [sig_without_state] body_closed_unlabelled)
  = (trace (validateHeaderSig sampleEnv
              (req_Header (delivery [sig_without_state] body_closed_unlabelled))
              (bytes_of_string body_closed_unlabelled)), Done tt)
  /\ decodes (trace (receiver sampleEnv
                       (delivery [sig_without_state] body_closed_unlabelled))) = 0%nat
  /\ count is_api (trace (receiver sampleEnv
                       (delivery [sig_without_state] body_closed_unlabelled))) = 0%nat
  /\ status_of (trace (receiver sampleEnv
                       (delivery [sig_without_state] body_closed_unlabelled))) = 200.
Proof.
  apply (receiver_refused_stops sampleEnv
           (delivery [sig_without_state] body_closed_unlabelled)
           (bytes_of_string body_closed_unlabelled)).
  - reflexivity.
  - vm_compute. reflexivity.
Defined.

Lemma receiver_read_error_run (E : Env) (req : Request) (data : bytes) (e : error) :
  req_Body req = (data, Some e) ->
  receiver E req
  = ([LogPrintf (String.append "Error reading body: " e);
      HttpError "can't read body" StatusBadRequest], Done tt).
Proof. intros H. unfold receiver. now rewrite H. Qed.

(** Every delivery is of one of three kinds. *)
Lemma receiver_kinds (E : Env) (req : Request) :
  (exists data e, req_Body req = (data, Some e))
  \/ (exists body, req_Body req = (body, None)
        /\ outcome (validateHeaderSig E (req_Header req) body) = Done false)
  \/ (exists body, req_Body req = (body, None)
        /\ outcome (validateHeaderSig E (req_Header req) body) = Done true).
Proof.
  destruct (req_Body req) as [body [e|]]; [left; eauto|].
  destruct (validateHeaderSig_returns E (req_Header req) body) as [[|] Hb].
  - right. right. eauto.
  - right. left. eauto.
Qed.

(** Case analysis on the run of an accepted delivery; [H] is the equation
    of the run in each case. *)
Ltac accepted_cases E req body Hbody Hval H :=
  pose proof (receiver_accepted E req body Hbody Hval) as H;
  let e := fresh "e" in
  let event := fresh "event" in
  let issue := fresh "issue" in
  let state := fresh "state" in
  destruct (json_Decode E body) as [e|[event|]] eqn:Hdec;
  [ | destruct (github.IssueEvent_Issue event) as [issue|] eqn:Hissue;
      [ destruct (github.Issue_State issue) as [state|] eqn:Hstate;
        [ destruct (String.eqb state "closed"
                    && negb (hasDocLabels (github.Issue_Labels issue))) eqn:Hcond
        | ]
      | ]
  | ].

Lemma reopenIssue_api_count (E : Env) (issue : option github.Issue) :
  (1 <= count is_api (trace (reopenIssue E issue)))%nat.
Proof.
  unfold reopenIssue.
  destruct (Issues_CreateComment _ _ _ _ _ _) as [e|]; [cbn; lia|].
  destruct (Issues_Edit _ _ _ _ _ _) as [e|]; cbn; lia.
Qed.

(** X17: with Go's [crypto/hmac], the handler calls the GitHub API only for
    an authentic delivery of a closed issue lacking both labels: if its run
    holds an API call, then the body was read, the [X-Hub-Signature] header
    carries exactly the HMAC-SHA1 signature of that body under the secret,
    and the body decoded to an event whose issue is [closed] and fails the
    label policy. *)
Theorem receiver_api_only_if_authentic (E : Env) (req : Request) :
  crypto E = go_hmac_sha1 ->
  (0 < count is_api (trace (receiver E req)))%nat ->
  exists body event issue,
    req_Body req = (body, None)
    /\ lookupSig (req_Header req) = Some [githubSignature (secretToken E) body]
    /\ json_Decode E body = inr (Some event)
    /\ github.IssueEvent_Issue event = Some issue
    /\ github.Issue_State issue = Some "closed"
    /\ hasDocLabels (github.Issue_Labels issue) = false.
Proof.
  intros Hc Hapi.
  destruct (receiver_kinds E req)
    as [(data & e & Hbody) | [(body & Hbody & Hval) | (body & Hbody & Hval)]].
  - rewrite (receiver_read_error_run E req data e Hbody) in Hapi. cbn in Hapi. lia.
  - rewrite (receiver_refused E req body Hbody Hval) in Hapi. cbn [trace fst] in Hapi.
    rewrite (validateHeaderSig_quiet is_api E _ _ stderr_not_api) in Hapi. lia.
  - assert (Hsig : lookupSig (req_Header req) = Some [githubSignature (secretToken E) body]).
    { apply validateHeaderSig_true in Hval as [Hl _].
      now rewrite (proj1 (computedSig_go E body Hc)) in Hl. }
    accepted_cases E req body Hbody Hval Hrun; rewrite Hrun in Hapi;
      try (cbn in Hapi; lia).
    apply andb_true_iff in Hcond as [Hst Hlab].
    apply String.eqb_eq in Hst. apply negb_true_iff in Hlab. subst.
    exists body, event, issue. auto 10.
Qed.

Lemma receiver_api_only_if_authentic_witness :
  exists body event issue,
    req_Body (signed_delivery sampleEnv body_closed_unlabelled) = (body, None)
    /\ lookupSig (req_Header (signed_delivery sampleEnv body_closed_unlabelled))
       = Some [githubSignature (secretToken sampleEnv) body]
    /\ json_Decode sampleEnv body = inr (Some event)
    /\ github.IssueEvent_Issue event = Some issue
    /\ github.Issue_State issue = Some "closed"
    /\ hasDocLabels (github.Issue_Labels issue) = false.
Proof.
  apply (receiver_api_only_if_authentic sampleEnv
           (signed_delivery sampleEnv body_closed_unlabelled)).
  - reflexivity.
  - vm_compute. lia.
Defined.

(** X18: when the authenticated body is not valid JSON for an event, the
    handler logs the decoder's error and returns; it calls no API and sets
    no status. *)
Theorem receiver_decode_error (E : Env) (req : Request) (body : bytes) (e : error) :
  req_Body req = (body, None) ->
  outcome (validateHeaderSig E (req_Header req) body) = Done true ->
  json_Decode E body = inl e ->
  receiver E req
  = ([JsonDecode body; Stderr (String.append "Could not decode json: " e)], Done tt)
  /\ status_of (trace (receiver E req)) = 200.
Proof.
  intros Hbody Hval Hdec.
  assert (H := receiver_accepted E req body Hbody Hval). rewrite Hdec in H.
  rewrite H. split; reflexivity.
Qed.

Lemma receiver_decode_error_witness :
  receiver sampleEnv (signed_delivery sampleEnv "{")
  = ([JsonDecode (bytes_of_string "{");
      Stderr (String.append "Could not decode json: " "invalid character")], Done tt)
  /\ status_of (trace (receiver sampleEnv (signed_delivery sampleEnv "{"))) = 200.
Proof.
  apply (receiver_decode_error sampleEnv (signed_delivery sampleEnv "{")
           (bytes_of_string "{") "invalid character").
  - reflexivity.
  - vm_compute. reflexivity.
  - reflexivity.
Defined.

(** X19: an authenticated event that carries no issue is dropped silently
    right after decoding. *)
Theorem receiver_no_issue (E : Env) (req : Request) (body : bytes)
  (event : github.IssueEvent) :
  req_Body req = (body, None) ->
  outcome (validateHeaderSig E (req_Header req) body) = Done true ->
  json_Decode E body = inr (Some event) ->
  github.IssueEvent_Issue event = None ->
  receiver E req = ([JsonDecode body], Done tt).
Proof.
  intros Hbody Hval Hdec Hissue.
  assert (H := receiver_accepted E req body Hbody Hval).
  now rewrite Hdec, Hissue in H.
Qed.

Lemma receiver_no_issue_witness :
  receiver (apiEnv None None) (signed_delivery (apiEnv None None) body_ping)
  = ([JsonDecode (bytes_of_string body_ping)], Done tt).
Proof.
  apply (receiver_no_issue (apiEnv None None)
           (signed_delivery (apiEnv None None) body_ping)
           (bytes_of_string body_ping) {| github.IssueEvent_Issue := None |}).
  - reflexivity.
  - vm_compute. reflexivity.
  - vm_compute. reflexivity.
  - reflexivity.
Defined.

(** X20: the handler panics exactly when an authenticated body decodes to a
    nil event (the JSON text [null]) or to an event whose issue has no
    state; on every other delivery it returns normally. *)
Theorem receiver_panics_iff (E : Env) (req : Request) :
  (outcome (receiver E req) = Panic nil_dereference <-> nil_reached E req)
  /\ (outcome (receiver E req) = Done tt <-> ~ nil_reached E req).
Proof.
  assert (Hcases : (nil_reached E req /\ outcome (receiver E req) = Panic nil_dereference)
                   \/ (~ nil_reached E req /\ outcome (receiver E req) = Done tt)).
  { destruct (receiver_kinds E req)
      as [(data & e & Hbody) | [(body & Hbody & Hval) | (body & Hbody & Hval)]].
    - right. rewrite (receiver_read_error_run E req data e Hbody). split; [|reflexivity].
      intros (b & Hb & _). congruence.
    - right. rewrite (receiver_refused E req body Hbody Hval). split; [|reflexivity].
      intros (b & Hb & Hv & _). rewrite Hbody in Hb. injection Hb as <-. congruence.
    - accepted_cases E req body Hbody Hval Hrun; rewrite Hrun.
      + right. split; [|reflexivity].
        intros (b & Hb & _ & [Hd | (ev & i & Hd & _)]);
          rewrite Hbody in Hb; injection Hb as <-; congruence.
      + right. split.
        * intros (b & Hb & _ & [Hd | (ev & i & Hd & Hi & Hs)]);
            rewrite Hbody in Hb; injection Hb as <-; [congruence|].
          rewrite Hdec in Hd. injection Hd as <-. congruence.
        * destruct (outcome (reopenIssue E (Some issue))) as [[?|]|?]; reflexivity.
      + right. split; [|reflexivity].
        intros (b & Hb & _ & [Hd | (ev & i & Hd & Hi & Hs)]);
          rewrite Hbody in Hb; injection Hb as <-; [congruence|].
        rewrite Hdec in Hd. injection Hd as <-. congruence.
      + left. split; [|reflexivity].
        exists body. split; [exact Hbody|]. split; [exact Hval|].
        right. exists event, issue. auto.
      + right. split; [|reflexivity].
        intros (b & Hb & _ & [Hd | (ev & i & Hd & Hi & Hs)]);
          rewrite Hbody in Hb; injection Hb as <-; [congruence|].
        rewrite Hdec in Hd. injection Hd as <-. congruence.
      + left. split; [|reflexivity].
        exists body. split; [exact Hbody|]. split; [exact Hval|]. now left. }
  destruct Hcases as [[Hn Ho] | [Hn Ho]]; rewrite Ho.
  - split; split; try tauto; discriminate.
  - split; split; try tauto; discriminate.
Qed.

(** The JSON text [null], correctly signed, makes the handler panic. *)
Example receiver_null_body :
  receiver (apiEnv None None) (signed_delivery (apiEnv None None) "null")
  = ([JsonDecode (bytes_of_string "null")], Panic nil_dereference).
Proof. vm_compute. reflexivity. Qed.


(** X22: when reopening fails the handler logs the error after the
    reopener's own log and returns normally; the response status is not
    changed. *)
Theorem receiver_reopen_failure (E : Env) (req : Request) (body : bytes)
  (event : github.IssueEvent) (issue : github.Issue) (e : error) :
  req_Body req = (body, None) ->
  outcome (validateHeaderSig E (req_Header req) body) = Done true ->
  json_Decode E body = inr (Some event) ->
  github.IssueEvent_Issue event = Some issue ->
  github.Issue_State issue = Some "closed" ->
  hasDocLabels (github.Issue_Labels issue) = false ->
  outcome (reopenIssue E (Some issue)) = Done (Some e) ->
  receiver E req
  = (JsonDecode body :: trace (reopenIssue E (Some issue))
       ++ [Stderr (String.append "Got error reopening issue: " e)], Done tt)
  /\ status_of (trace (receiver E req)) = 200.
Proof.
  intros Hbody Hval Hdec Hissue Hstate Hlab Hre.
  assert (H := receiver_accepted E req body Hbody Hval).
  rewrite Hdec, Hissue, Hstate, Hlab, Hre in H. cbn [String.eqb Ascii.eqb Bool.eqb andb negb] in H.
  split; [exact H|].
  rewrite H. cbn [trace fst status_of].
  now rewrite status_of_app by apply reopenIssue_no_http_error.
Qed.

Lemma receiver_reopen_failure_witness :
  receiver (apiEnv (Some "403 Forbidden") None)
    (signed_delivery (apiEnv (Some "403 Forbidden") None) body_closed_unlabelled)
  = (JsonDecode (bytes_of_string body_closed_unlabelled)
       :: trace (reopenIssue (apiEnv (Some "403 Forbidden") None)
                   (Some issue_closed_unlabelled))
       ++ [Stderr (String.append "Got error reopening issue: " "403 Forbidden")], Done tt)
  /\ status_of (trace (receiver (apiEnv (Some "403 Forbidden") None)
       (signed_delivery (apiEnv (Some "403 Forbidden") None) body_closed_unlabelled)))
     = 200.
Proof.
  apply (receiver_reopen_failure (apiEnv (Some "403 Forbidden") None)
           (signed_delivery (apiEnv (Some "403 Forbidden") None) body_closed_unlabelled)
           (bytes_of_string body_closed_unlabelled)
           {| github.IssueEvent_Issue := Some issue_closed_unlabelled |}
           issue_closed_unlabelled "403 Forbidden").
  - reflexivity.
  - vm_compute. reflexivity.
  - vm_compute. reflexivity.
  - reflexivity.
  - reflexivity.
  - reflexivity.
  - reflexivity.
Defined.

(** X23: an authenticated issue event whose issue has a state and carries a
    label named [docs/has-impact] or [docs/no-impact] is left alone: the
    handler decodes it and returns, without any call or log. *)
Theorem receiver_labelled_untouched (E : Env) (req : Request) (body : bytes)
  (event : github.IssueEvent) (issue : github.Issue) (state : string)
  (label : github.Label) :
  req_Body req = (body, None) ->
  outcome (validateHeaderSig E (req_Header req) body) = Done true ->
  json_Decode E body = inr (Some event) ->
  github.IssueEvent_Issue event = Some issue ->
  github.Issue_State issue = Some state ->
  In label (github.Issue_Labels issue) ->
  github.GetName label = "docs/has-impact" \/ github.GetName label = "docs/no-impact" ->
  receiver E req = ([JsonDecode body], Done tt).
Proof.
  intros Hbody Hval Hdec Hissue Hstate Hin Hname.
  assert (Hlab : hasDocLabels (github.Issue_Labels issue) = true).
  { apply hasDocLabels_true_iff. exists label. auto. }
  assert (H := receiver_accepted E req body Hbody Hval).
  rewrite Hdec, Hissue, Hstate, Hlab in H.
  now rewrite andb_false_r in H.
Qed.

Lemma receiver_labelled_untouched_witness :
  receiver (apiEnv None None) (signed_delivery (apiEnv None None) body_closed_labelled)
  = ([JsonDecode (bytes_of_string body_closed_labelled)], Done tt).
Proof.
  apply (receiver_labelled_untouched (apiEnv None None)
           (signed_delivery (apiEnv None None) body_closed_labelled)
           (bytes_of_string body_closed_labelled)
           {| github.IssueEvent_Issue := Some issue_closed_labelled |}
           issue_closed_labelled "closed"
           {| github.Label_Name := Some "docs/no-impact" |}).
  - reflexivity.
  - vm_compute. reflexivity.
  - vm_compute. reflexivity.
  - reflexivity.
  - reflexivity.
  - left. reflexivity.
  - right. reflexivity.
Defined.

(** X24: the whole path.  With Go's [crypto/hmac], a delivery that carries
    GitHub's signature of its body and decodes to a closed issue lacking
    both labels makes the handler, when GitHub accepts both calls, decode
    the body, post the reminder on that issue of [vmware/vic] and then set
    its state to [open], in this order and with nothing else. *)
Theorem receiver_end_to_end (E : Env) (req : Request) (body : bytes)
  (event : github.IssueEvent) (issue : github.Issue) :
  crypto E = go_hmac_sha1 ->
  req_Body req = (body, None) ->
  lookupSig (req_Header req) = Some [githubSignature (secretToken E) body] ->
  json_Decode E body = inr (Some event) ->
  github.IssueEvent_Issue event = Some issue ->
  github.Issue_State issue = Some "closed" ->
  hasDocLabels (github.Issue_Labels issue) = false ->
  Issues_CreateComment E (githubAccessToken E) "vmware" "vic"
    (github.GetNumber (Some issue)) reminder = None ->
  Issues_Edit E (githubAccessToken E) "vmware" "vic"
    (github.GetNumber (Some issue)) "open" = None ->
  receiver E req
  = ([JsonDecode body;
      ReopenIssue (Some issue);
      CreateComment "vmware" "vic" (github.GetNumber (Some issue)) reminder;
      EditIssue "vmware" "vic" (github.GetNumber (Some issue)) "open"], Done tt).
Proof.
  intros Hc Hbody Hsig Hdec Hissue Hstate Hlab Hcreate Hedit.
  assert (Hval : outcome (validateHeaderSig E (req_Header req) body) = Done true).
  { destruct (computedSig_go E body Hc) as [Hs Hw].
    apply validateHeaderSig_true. rewrite Hs. auto. }
  assert (H := receiver_accepted E req body Hbody Hval).
  rewrite Hdec, Hissue, Hstate, Hlab in H.
  cbn [String.eqb Ascii.eqb Bool.eqb andb negb] in H. rewrite H.
  unfold reopenIssue, repoOwner, repoName. rewrite Hcreate, Hedit. reflexivity.
Qed.

Lemma receiver_end_to_end_witness :
  receiver sampleEnv (signed_delivery sampleEnv body_closed_unlabelled)
  = ([JsonDecode (bytes_of_string body_closed_unlabelled);
      ReopenIssue (Some issue_closed_unlabelled);
      CreateComment "vmware" "vic" (github.GetNumber (Some issue_closed_unlabelled)) reminder;
      EditIssue "vmware" "vic" (github.GetNumber (Some issue_closed_unlabelled)) "open"],
     Done tt).
Proof.
  apply (receiver_end_to_end sampleEnv (signed_delivery sampleEnv body_closed_unlabelled)
           (bytes_of_string body_closed_unlabelled)
           {| github.IssueEvent_Issue := Some issue_closed_unlabelled |}
           issue_closed_unlabelled); reflexivity.
Defined.

Lemma reopenIssue_no_decode (E : Env) (issue : option github.Issue) :
  count is_decode (trace (reopenIssue E issue)) = 0%nat.
Proof.
  unfold reopenIssue.
  destruct (Issues_CreateComment _ _ _ _ _ _) as [e|]; [reflexivity|].
  destruct (Issues_Edit _ _ _ _ _ _) as [e|]; reflexivity.
Qed.

(** X25: the JSON decoder is reached at most once per delivery, and it is
    reached exactly when the body was read and the signature accepted. *)
Theorem receiver_decodes_iff (E : Env) (req : Request) :
  (decodes (trace (receiver E req)) <= 1)%nat
  /\ (decodes (trace (receiver E req)) = 1%nat <->
      exists body, req_Body req = (body, None)
        /\ outcome (validateHeaderSig E (req_Header req) body) = Done true).
Proof.
  unfold decodes.
  destruct (receiver_kinds E req)
    as [(data & e & Hbody) | [(body & Hbody & Hval) | (body & Hbody & Hval)]].
  - rewrite (receiver_read_error_run E req data e Hbody). cbn.
    split; [lia|]. split; [discriminate|]. intros (b & Hb & _). congruence.
  - rewrite (receiver_refused E req body Hbody Hval). cbn [trace fst].
    rewrite (validateHeaderSig_quiet is_decode E _ _ stderr_not_decode).
    split; [lia|]. split; [discriminate|].
    intros (b & Hb & Hv). rewrite Hbody in Hb. injection Hb as <-. congruence.
  - assert (Hone : count is_decode (trace (receiver E req)) = 1%nat).
    { accepted_cases E req body Hbody Hval Hrun; rewrite Hrun; try reflexivity.
      cbn [trace fst]. rewrite count_cons, count_app, reopenIssue_no_decode.
      destruct (outcome (reopenIssue E (Some issue))) as [[?|]|?]; reflexivity. }
    rewrite Hone. split; [lia|]. split; [|reflexivity]. intros _. eauto.
Qed.

(** X26: with Go's [crypto/hmac], whose [Write] cannot fail, the only
    diagnostic the validator ever prints is [Got suspicious signature], and
    it prints it exactly when the header is present with a number of values
    other than one; a missing header and a wrong signature are refused in
    silence. *)
Theorem validateHeaderSig_go_diagnostics (E : Env) (headers : Header) (body : bytes) :
  crypto E = go_hmac_sha1 ->
  stderr_of (trace (validateHeaderSig E headers body))
  = match lookupSig headers with
    | Some v => if Nat.eqb (List.length v) 1 then [] else ["Got suspicious signature"]
    | None => []
    end.
Proof.
  intros Hc. rewrite validateHeaderSig_lookup.
  destruct (lookupSig headers) as [v|]; [|reflexivity].
  destruct (Nat.eqb (List.length v) 1); [|reflexivity].
  cbn [negb]. generalize (checkSignature_stderr E v body).
  rewrite (proj2 (computedSig_go E body Hc)). now intros ->.
Qed.

Lemma validateHeaderSig_go_diagnostics_witness :
  stderr_of (trace (validateHeaderSig sampleEnv
     (req_Header (delivery [sig_closed_unlabelled; sig_closed_unlabelled]
                    body_closed_unlabelled))
     (bytes_of_string body_closed_unlabelled)))
  = match lookupSig (req_Header (delivery [sig_closed_unlabelled; sig_closed_unlabelled]
                                   body_closed_unlabelled)) with
    | Some v => if Nat.eqb (List.length v) 1 then [] else ["Got suspicious signature"]
    | None => []
    end.
Proof.
  apply (validateHeaderSig_go_diagnostics sampleEnv
           (req_Header (delivery [sig_closed_unlabelled; sig_closed_unlabelled]
                          body_closed_unlabelled))
           (bytes_of_string body_closed_unlabelled)).
  reflexivity.
Defined.
